(** * ampy/pyboard.py: the raw-REPL session and its transports

    A shallow embedding of [src/ampy/pyboard.py].  Python [bytes] are lists
    of [Byte.byte], Python [str] values are lists of Unicode code points,
    durations and timeouts are rationals (seconds), exceptions carry their
    class, their [args] tuple and the line of the [raise] statement.  The
    two transports ([telnetlib.Telnet] and the pyserial port) are external
    libraries: they enter as type classes over a world type, and concrete
    device doubles instantiate them. *)

From Stdlib Require Import String Ascii Bool Arith NArith ZArith QArith Lia List.
From Stdlib Require Import Strings.Byte.
Import ListNotations.

Local Close Scope Q_scope.
Local Open Scope nat_scope.
Local Open Scope list_scope.

(* ===================================================================== *)
(** ** Python values used by the module *)
(* ===================================================================== *)

Module Py.

Definition bytes := list byte.

(** A bytes literal without escapes, [b"..."]. *)
Definition b (s : string) : bytes := list_byte_of_string s.

Definition EOT : byte := x04.  (* b'\x04' *)
Definition CR : byte := x0d.   (* '\r' *)
Definition LF : byte := x0a.   (* '\n' *)

Fixpoint bytes_eqb (x y : bytes) : bool :=
  match x, y with
  | [], [] => true
  | c :: x', d :: y' => Byte.eqb c d && bytes_eqb x' y'
  | _, _ => false
  end.

(** [x.startswith(prefix)] *)
Fixpoint startswith (x prefix : bytes) : bool :=
  match prefix, x with
  | [], _ => true
  | p :: prefix', c :: x' => Byte.eqb c p && startswith x' prefix'
  | _ :: _, [] => false
  end.

(** [x.endswith(suffix)] *)
Definition endswith (x suffix : bytes) : bool :=
  (length suffix <=? length x)
  && bytes_eqb (skipn (length x - length suffix) x) suffix.

(** [needle in hay] on bytes: [needle] occurs as a contiguous run. *)
Fixpoint contains (hay needle : bytes) : bool :=
  startswith hay needle
  || match hay with
     | [] => false
     | _ :: hay' => contains hay' needle
     end.

(** [x[:-1]] *)
Definition drop_last (x : bytes) : bytes := removelast x.

(** [x[i:j]] for [0 <= i], [0 <= j]. *)
Definition slice (x : bytes) (i j : nat) : bytes := firstn (j - i) (skipn i x).

(** [x[-n:]] for [0 <= n]; Python reads [x[-0:]] as [x[0:]]. *)
Definition tail_slice (x : bytes) (n : nat) : bytes :=
  match n with
  | O => x
  | _ => skipn (length x - n) x
  end.

(** [x.replace(bytes([c]), b"")] *)
Definition remove_byte (c : byte) (x : bytes) : bytes :=
  filter (fun d => negb (Byte.eqb d c)) x.

(** [range(0, stop, step)] for a positive [step]. *)
Definition range0 (stop step : nat) : list nat :=
  map (fun k => k * step) (seq 0 ((stop + step - 1) / step)).

(** A [str] is a sequence of code points. *)
Definition str := list N.

Definition s (lit : string) : str := map N_of_ascii (list_ascii_of_string lit).

Definition byte_of_N (n : N) : byte :=
  match Byte.of_N (n mod 256) with
  | Some c => c
  | None => x00
  end.

(** [bytes(x, 'ascii')]: [None] stands for UnicodeEncodeError. *)
Fixpoint encode_ascii (x : str) : option bytes :=
  match x with
  | [] => Some []
  | c :: x' =>
      if (c <? 128)%N
      then option_map (cons (byte_of_N c)) (encode_ascii x')
      else None
  end.

Definition utf8_char (c : N) : option bytes :=
  if (c <? 128)%N then Some [byte_of_N c]
  else if (c <? 2048)%N then
    Some [byte_of_N (192 + c / 64); byte_of_N (128 + c mod 64)]
  else if ((55296 <=? c) && (c <=? 57343))%N then None   (* surrogates *)
  else if (c <? 65536)%N then
    Some [byte_of_N (224 + c / 4096); byte_of_N (128 + (c / 64) mod 64);
          byte_of_N (128 + c mod 64)]
  else if (c <? 1114112)%N then
    Some [byte_of_N (240 + c / 262144); byte_of_N (128 + (c / 4096) mod 64);
          byte_of_N (128 + (c / 64) mod 64); byte_of_N (128 + c mod 64)]
  else None.

(** [bytes(x, encoding='utf8')]: [None] stands for UnicodeEncodeError. *)
Fixpoint encode_utf8 (x : str) : option bytes :=
  match x with
  | [] => Some []
  | c :: x' =>
      match utf8_char c, encode_utf8 x' with
      | Some h, Some t => Some (h ++ t)
      | _, _ => None
      end
  end.

(** [x.count(ch)] for a one-character [ch]. *)
Definition count (x : str) (ch : N) : nat :=
  length (filter (N.eqb ch) x).

Definition ascii_digit (c : N) : bool := ((48 <=? c) && (c <=? 57))%N.

(** The interpreter's Unicode database decides [str.isdigit] outside the
    ASCII range (code points whose Numeric_Type is Digit or Decimal).
    The table is not part of the module's source; it is a parameter. *)
Class UnicodeData := { numeric_type_digit : N -> bool }.

(** [ch.isdigit()] for a one-character [ch]. *)
Definition isdigit `{UnicodeData} (c : N) : bool :=
  if (c <? 128)%N then ascii_digit c else numeric_type_digit c.

(** The objects whose truth value the module tests. *)
Inductive obj :=
| NoneObj
| BoolObj (v : bool)
| BytesObj (v : bytes)
| StrObj (v : str)
| BoundMethod (name : string).

Definition truthy (o : obj) : bool :=
  match o with
  | NoneObj => false
  | BoolObj v => v
  | BytesObj v => negb (length v =? 0)
  | StrObj v => negb (length v =? 0)
  | BoundMethod _ => true
  end.

(** Exceptions: class, [args] and the line of the raising statement. *)
Inductive exn_class := PyboardError | UnicodeEncodeError.

Inductive arg := AStr (v : string) | ABytes (v : bytes).

Record exn := Raised { exn_cls : exn_class; exn_args : list arg; exn_line : N }.

End Py.
Import Py.


(* ===================================================================== *)
(** ** Effects: a state-and-exception monad over the outside world *)
(* ===================================================================== *)

Inductive res (A : Type) : Type :=
| Ok (a : A)
| Raise (e : exn).
Arguments Ok {A} a.
Arguments Raise {A} e.

(** A computation runs in a world [W] (the transport, the clock, the
    standard output) and returns or raises; the world survives a raise. *)
Definition M (W A : Type) : Type := W -> res A * W.

Definition ret {W A} (a : A) : M W A := fun w => (Ok a, w).

Definition bind {W A B} (m : M W A) (k : A -> M W B) : M W B :=
  fun w =>
    match m w with
    | (Ok a, w') => k a w'
    | (Raise e, w') => (Raise e, w')
    end.

Definition raise {W A} (e : exn) : M W A := fun w => (Raise e, w).

(** A library call that returns a value. *)
Definition call {W A} (f : W -> A * W) : M W A :=
  fun w => let (a, w') := f w in (Ok a, w').

(** A library call used for its effect only. *)
Definition act {W} (f : W -> W) : M W unit := fun w => (Ok tt, f w).

Declare Scope py_scope.
Delimit Scope py_scope with py.
Notation "x <- m ;; k" := (bind m (fun x => k))
  (at level 61, m at next level, right associativity) : py_scope.
Notation "m ;; k" := (bind m (fun _ => k))
  (at level 61, right associativity) : py_scope.
Local Open Scope py_scope.

(** [a > b] on numbers. *)
Definition Qgtb (a c : Q) : bool := negb (Qle_bool a c).

(* ===================================================================== *)
(** ** The external libraries, as interfaces *)
(* ===================================================================== *)

(** [time.sleep(seconds)] *)
Class Clock (W : Type) := { sleep : Q -> W -> W }.

(** [telnetlib.Telnet]: the calls the relay makes on [self.tn]. *)
Class Telnet (W : Type) := {
  tn_open : str -> Q -> W -> W;                       (* Telnet(ip, timeout=..) *)
  tn_read_until : bytes -> option Q -> W -> bytes * W;
  tn_read_eager : W -> bytes * W;
  tn_write : bytes -> W -> W;
  tn_close : W -> W
}.

(** The pyserial port: the calls the session makes on [self.serial]. *)
Class Serial (W : Type) := {
  serial_open : W -> W;
  serial_close : W -> W;
  serial_write : bytes -> W -> W;
  serial_read : nat -> W -> bytes * W;
  serial_read_until : bytes -> W -> bytes * W;
  serial_read_all : W -> bytes * W;
  serial_flushInput : W -> W
}.

(** [sys.stdout] (its [buffer] on Python 3). *)
Class Stdout (W : Type) := {
  stdout_write : bytes -> W -> W;
  stdout_flush : W -> W
}.

(** [stdout_write_bytes(b)] *)
Definition stdout_write_bytes {W} `{Stdout W} (x : bytes) : W -> W :=
  fun w =>
    let x := remove_byte EOT x in
    stdout_flush (stdout_write x w).

(* ===================================================================== *)
(** ** class TelnetToSerial *)
(* ===================================================================== *)

Module TelnetToSerial.

(** The instance attributes besides [self.tn], which lives in the world. *)
Record t := { read_timeout : option Q; fifo : list byte }.

Definition login_prompt : bytes := b "Login as:".
Definition password_prompt : bytes := b "Password:".
(** [b'Type "help()" for more information.'] *)
Definition banner : bytes :=
  b "Type " ++ [x22] ++ b "help()" ++ [x22] ++ b " for more information.".
Definition banner_tail : bytes := b "for more information.".
Definition CRLF : bytes := [CR; LF].

Definition handshake_failed : exn :=
  Raised PyboardError
    [AStr "Failed to establish a telnet connection with the board"] 78.

Section Methods.
Context {W : Type} `{Telnet W} `{Clock W}.

(** [bytes(x, 'ascii')] at source line [line]. *)
Definition ascii_bytes (x : str) (line : N) : M W bytes :=
  match encode_ascii x with
  | Some e => ret e
  | None => raise (Raised UnicodeEncodeError [] line)
  end.

Definition __init__ (ip user password : str) (read_timeout : option Q) : M W t :=
  act (tn_open ip 15%Q) ;;
  r1 <- call (tn_read_until login_prompt read_timeout) ;;
  if contains r1 login_prompt then
    u <- ascii_bytes user 65 ;;
    act (tn_write (u ++ CRLF)) ;;
    r2 <- call (tn_read_until password_prompt read_timeout) ;;
    if contains r2 password_prompt then
      act (sleep (2 # 10)) ;;
      p <- ascii_bytes password 70 ;;
      act (tn_write (p ++ CRLF)) ;;
      r3 <- call (tn_read_until banner read_timeout) ;;
      if contains r3 banner_tail then
        ret {| read_timeout := read_timeout; fifo := [] |}
      else raise handshake_failed
    else raise handshake_failed
  else raise handshake_failed.

Definition close : W -> W := tn_close.

(** [self.fifo.extend(data)] *)
Definition extend (self : t) (data : bytes) : t :=
  {| read_timeout := read_timeout self; fifo := fifo self ++ data |}.

(** The polling loop of [read].  [fuel] bounds the number of iterations
    that are run; [None] means the loop is still running when the fuel is
    spent.  [timeout_count] is the local variable as the previous iteration
    left it (it is unbound before the first one, and never read before the
    assignment at the top of the body). *)
Fixpoint read_poll (fuel : nat) (self : t) (size : nat) (timeout_count : Z)
    (w : W) : option (t * W) :=
  match fuel with
  | O => None
  | S fuel' =>
      if length (fifo self) <? size then
        let timeout_count := 0%Z in
        let (data, w1) := tn_read_eager w in
        if negb (length data =? 0) then
          let self := extend self data in
          let timeout_count := 0%Z in
          read_poll fuel' self size timeout_count w1
        else
          let w2 := sleep (25 # 100) w1 in
          if match read_timeout self with
             | Some rt => Qgtb (inject_Z timeout_count) (4 * rt)
             | None => false
             end
          then Some (self, w2)                                   (* break *)
          else
            let timeout_count := (timeout_count + 1)%Z in
            read_poll fuel' self size timeout_count w2
      else Some (self, w)
  end.

(** The second loop of [read]: pop from the head of the FIFO while
    [len(data) < size and len(self.fifo) > 0]. *)
Fixpoint drain (size : nat) (data : bytes) (fifo : list byte) : bytes * list byte :=
  match fifo with
  | c :: fifo' =>
      if length data <? size then drain size (data ++ [c]) fifo' else (data, fifo)
  | [] => (data, [])
  end.

Definition read (fuel : nat) (self : t) (size : nat) (w : W)
  : option (bytes * t * W) :=
  match read_poll fuel self size 0%Z w with
  | None => None
  | Some (self, w') =>
      let (data, rest) := drain size [] (fifo self) in
      Some (data, {| read_timeout := read_timeout self; fifo := rest |}, w')
  end.

Definition write (data : bytes) (w : W) : nat * W :=
  (length data, tn_write data w).

Definition inWaiting (self : t) (w : W) : nat * t * W :=
  let n_waiting := length (fifo self) in
  if n_waiting =? 0 then
    let (data, w') := tn_read_eager w in
    (length data, extend self data, w')
  else (n_waiting, self, w).

End Methods.
End TelnetToSerial.

(* ===================================================================== *)
(** ** class Pyboard *)
(* ===================================================================== *)

Module Pyboard.

(** A command is given as [bytes] or as [str]. *)
Inductive command :=
| CmdBytes (c : bytes)
| CmdStr (c : str).

(** The attributes the constructor sets on the pyserial port. *)
Record port_settings := {
  baudrate : Z;
  timeout : option Q;
  write_timeout : option Q;
  inter_byte_timeout : option Q;
  rts : Z;
  dtr : Z
}.

(** What the constructor builds for [self.serial]. *)
Inductive transport :=
| Relay (ip user password : str) (read_timeout : option Q)
    (* TelnetToSerial(device, user, password, read_timeout=10) *)
| Port (url : str) (cfg : port_settings).
    (* serial.serial_for_url(device, do_not_open=True), configured, opened *)

(** The constructor's results: [self.serial] and the module global
    [_rawdelay] it assigns. *)
Record t := { serial : transport; _rawdelay : Q }.

Definition __init__ `{UnicodeData} (device : str) (baudrate : Z)
    (user password : str) (wait : Z) (rawdelay : Q) : t :=
  let _rawdelay := rawdelay in
  if truthy (StrObj device)
     && isdigit (nth 0 device 0%N)
     && isdigit (last device 0%N)
     && (count device 46%N =? 3)                     (* device.count('.') *)
  then
    {| serial := Relay device user password (Some 10%Q); _rawdelay := _rawdelay |}
  else
    {| serial := Port device
         {| baudrate := 115200; timeout := Some 1%Q; write_timeout := Some 1%Q;
            inter_byte_timeout := Some 1%Q; rts := 0; dtr := 0 |};
       _rawdelay := _rawdelay |}.

Definition raw_repl_banner : bytes := b "raw REPL; CTRL-B to exit" ++ [CR; LF].

Definition could_not_enter (line : N) : exn :=
  Raised PyboardError [AStr "could not enter raw repl"] line.
Definition first_eof_timeout : exn :=
  Raised PyboardError [AStr "timeout waiting for first EOF reception"] 187.
Definition second_eof_timeout : exn :=
  Raised PyboardError [AStr "timeout waiting for second EOF reception"] 193.
Definition could_not_exec : exn :=
  Raised PyboardError [AStr "could not exec command"] 219.
Definition remote_exception (ret ret_err : bytes) : exn :=
  Raised PyboardError [AStr "exception"; ABytes ret; ABytes ret_err] 234.

(** Lines 202-205 of [exec_raw_no_follow]: [command] itself when it is
    [bytes], else [bytes(command, encoding='utf8')]; [None] stands for the
    UnicodeEncodeError of the latter. *)
Definition to_command_bytes (command : command) : option bytes :=
  match command with
  | CmdBytes c => Some c
  | CmdStr c => encode_utf8 c
  end.

Section Methods.
Context {W : Type} `{Serial W} `{Clock W}.

(** An output sink, [data_consumer]; [None] is Python's [None]. *)
Definition consumer := option (bytes -> W -> W).

Definition close : W -> W := serial_close.

Definition read_until (min_num_bytes : nat) (ending : bytes)
    (timeout : option Q) (data_consumer : consumer) : M W bytes :=
  data <- call (serial_read_until ending) ;;
  match data_consumer with
  | Some f => act (f data)
  | None => ret tt
  end ;;
  ret data.

(** [self.isPrompt()], the method body. *)
Definition isPrompt : M W bool :=
  data <- call serial_read_all ;;
  if bytes_eqb data (b ">") then ret true else ret false.

(** [self.isPrompt], the attribute: a bound method object. *)
Definition isPrompt_attr : obj := BoundMethod "isPrompt".

Definition enter_raw_repl (_rawdelay : Q) : M W unit :=
  (if Qgtb _rawdelay 0 then act (sleep _rawdelay) else ret tt) ;;
  act (serial_write [CR; x03; x03]) ;;
  act serial_flushInput ;;
  act (serial_write [CR; x01]) ;;
  data <- read_until 1 raw_repl_banner (Some 10%Q) None ;;
  if negb (endswith data raw_repl_banner) then raise (could_not_enter 173)
  else if negb (truthy isPrompt_attr) then raise (could_not_enter 175)
  else act serial_flushInput.

Definition exit_raw_repl : M W unit :=
  act (serial_write [CR; x02]).

Definition follow (timeout : option Q) (data_consumer : consumer)
  : M W (bytes * bytes) :=
  data <- read_until 1 [EOT] timeout data_consumer ;;
  if negb (endswith data [EOT]) then raise first_eof_timeout
  else
    let data := drop_last data in
    data_err <- read_until 1 [EOT] timeout None ;;
    if negb (endswith data_err [EOT]) then raise second_eof_timeout
    else
      let data_err := drop_last data_err in
      act serial_flushInput ;;
      ret (data, data_err).

(** The [for] loop of [exec_raw_no_follow]: one write and one pause per
    index of [range(0, len(command_bytes), 256)]. *)
Definition write_chunks (command_bytes : bytes) (w : W) : W :=
  fold_left
    (fun w i =>
       let w := serial_write
                  (slice command_bytes i (min (i + 256) (length command_bytes))) w in
       sleep (1 # 100) w)
    (range0 (length command_bytes) 256) w.

Definition exec_raw_no_follow (command : command) : M W unit :=
  command_bytes <-
    match to_command_bytes command with
    | Some c => ret c
    | None => raise (Raised UnicodeEncodeError [] 205)
    end ;;
  act (write_chunks command_bytes) ;;
  act (serial_write [EOT]) ;;
  data <- call (serial_read 2) ;;
  if negb (bytes_eqb data (b "OK")) then raise could_not_exec
  else ret tt.

Definition exec_raw (command : command) (timeout : option Q)
    (data_consumer : consumer) : M W (bytes * bytes) :=
  exec_raw_no_follow command ;;
  output <- follow timeout data_consumer ;;
  ret output.

Definition exec_ (command : command) : M W bytes :=
  r <- exec_raw command (Some 10%Q) None ;;
  let '(ret_, ret_err) := r in
  if truthy (BytesObj ret_err) then raise (remote_exception ret_ ret_err)
  else ret ret_.

End Methods.
End Pyboard.

(* ===================================================================== *)
(** ** Device doubles *)
(* ===================================================================== *)

(** *** A serial line with a scripted device behind it

    [buffered] holds the bytes already waiting in the port's input buffer,
    [rx] the bytes the device still sends, each of them before a read
    times out; a read draws on [buffered] and then on [rx].  [tx] logs the
    writes in order, [naps] the pauses, [printed] what reached the
    standard output. *)
Record wire := {
  buffered : bytes;
  rx : bytes;
  tx : list bytes;
  naps : list Q;
  printed : bytes
}.

Definition wire_of (stream : bytes) : wire :=
  {| buffered := []; rx := stream; tx := []; naps := []; printed := [] |}.

(** Everything a sequence of reads can still obtain. *)
Definition incoming (p : wire) : bytes := buffered p ++ rx p.

(** The port after [k] bytes were read. *)
Definition consume (k : nat) (p : wire) : wire :=
  {| buffered := skipn k (buffered p);
     rx := skipn (k - length (buffered p)) (rx p);
     tx := tx p; naps := naps p; printed := printed p |}.

(** pyserial's [read_until(expected)]: bytes are read one at a time into
    [line] until [line[-len(expected):] == expected] or a read comes back
    empty. *)
Fixpoint wire_read_until (expected line stream : bytes) : bytes :=
  match stream with
  | [] => line
  | c :: stream' =>
      let line := line ++ [c] in
      if bytes_eqb (tail_slice line (length expected)) expected
      then line
      else wire_read_until expected line stream'
  end.

#[export] Instance wire_serial : Serial wire := {
  serial_open := fun p => p;
  serial_close := fun p => p;
  serial_write := fun data p =>
    {| buffered := buffered p; rx := rx p; tx := tx p ++ [data];
       naps := naps p; printed := printed p |};
  serial_read := fun size p =>
    let data := firstn size (incoming p) in (data, consume (length data) p);
  serial_read_until := fun expected p =>
    let line := wire_read_until expected [] (incoming p) in
    (line, consume (length line) p);
  serial_read_all := fun p => (buffered p, consume (length (buffered p)) p);
  serial_flushInput := fun p => consume (length (buffered p)) p
}.

#[export] Instance wire_clock : Clock wire := {
  sleep := fun d p =>
    {| buffered := buffered p; rx := rx p; tx := tx p;
       naps := naps p ++ [d]; printed := printed p |}
}.

#[export] Instance wire_stdout : Stdout wire := {
  stdout_write := fun data p =>
    {| buffered := buffered p; rx := rx p; tx := tx p;
       naps := naps p; printed := printed p ++ data |};
  stdout_flush := fun p => p
}.

(** A sink that never touches the port's input. *)
Definition input_preserving (sink : Pyboard.consumer (W := wire)) : Prop :=
  forall f, sink = Some f -> forall d q, incoming (f d q) = incoming q.

(** *** A telnet peer driven by the history of the connection

    Every call is logged; what a read returns is a function of the log up
    to and including that read, so any deterministic peer is an instance. *)
Inductive tn_event :=
| EvOpen (ip : str) (timeout : Q)
| EvReadUntil (expected : bytes) (timeout : option Q)
| EvReadEager
| EvWrite (data : bytes)
| EvClose
| EvSleep (seconds : Q).

Record peer := {
  reply : list tn_event -> bytes;
  history : list tn_event
}.

Definition log (ev : tn_event) (p : peer) : peer :=
  {| reply := reply p; history := history p ++ [ev] |}.

Definition ask (ev : tn_event) (p : peer) : bytes * peer :=
  let p' := log ev p in (reply p (history p'), p').

#[export] Instance peer_telnet : Telnet peer := {
  tn_open := fun ip timeout => log (EvOpen ip timeout);
  tn_read_until := fun expected timeout => ask (EvReadUntil expected timeout);
  tn_read_eager := ask EvReadEager;
  tn_write := fun data => log (EvWrite data);
  tn_close := log EvClose
}.

#[export] Instance peer_clock : Clock peer := {
  sleep := fun d => log (EvSleep d)
}.

(** The calls of a complete login, in order, for the encoded user name
    [u] and password [pw]. *)
Definition handshake_script (ip : str) (u pw : bytes) (read_timeout : option Q)
  : list tn_event :=
  [ EvOpen ip 15%Q;
    EvReadUntil TelnetToSerial.login_prompt read_timeout;
    EvWrite (u ++ TelnetToSerial.CRLF);
    EvReadUntil TelnetToSerial.password_prompt read_timeout;
    EvSleep (2 # 10);
    EvWrite (pw ++ TelnetToSerial.CRLF);
    EvReadUntil TelnetToSerial.banner read_timeout ].

(** A peer that answers every [read_until] with the text it waits for. *)
Definition prompt_peer : peer :=
  {| reply := fun h =>
       match last h EvClose with
       | EvReadUntil expected _ => expected
       | _ => []
       end;
     history := [] |}.

(** A peer that has two bytes ready at every [read_eager]. *)
Definition chatty_peer : peer :=
  {| reply := fun h =>
       match last h EvClose with
       | EvReadEager => b "ab"
       | _ => []
       end;
     history := [] |}.

(** A peer that never sends anything. *)
Definition silent_peer : peer := {| reply := fun _ => []; history := [] |}.

(** A fragment of the Unicode database: besides ASCII, the Arabic-Indic
    digits U+0660..U+0669 (general category Nd, on which [str.isdigit]
    is [True]). *)
Definition arabic_indic : UnicodeData :=
  {| numeric_type_digit := fun c => ((1632 <=? c) && (c <=? 1641))%N |}.

(** The rule as the specification words it: first and last characters
    ASCII digits, exactly three dots. *)
Definition ascii_ipv4_rule (device : str) : bool :=
  match device with
  | [] => false
  | c :: _ => ascii_digit c && ascii_digit (last device 0%N) && (count device 46%N =? 3)
  end.

Definition is_relay (tr : Pyboard.transport) : bool :=
  match tr with
  | Pyboard.Relay _ _ _ _ => true
  | Pyboard.Port _ _ => false
  end.

(* ===================================================================== *)
(** ** The remaining methods *)
(* ===================================================================== *)

Module PyBytes.

(** The bytes that [bytes.strip()] removes: space, tab, newline, carriage
    return, vertical tab, form feed. *)
Definition is_space (c : byte) : bool :=
  match c with
  | x20 | x09 | x0a | x0d | x0b | x0c => true
  | _ => false
  end.

(** [x.lstrip()] *)
Fixpoint lstrip (x : bytes) : bytes :=
  match x with
  | c :: x' => if is_space c then lstrip x' else x
  | [] => []
  end.

(** [x.rstrip()] *)
Definition rstrip (x : bytes) : bytes := rev (lstrip (rev x)).

(** [x.strip()] *)
Definition strip (x : bytes) : bytes := rstrip (lstrip x).

End PyBytes.

Module PyboardMore.

Section Methods.
Context {W : Type} `{Serial W} `{Clock W}.

(** ['print({})'.format(expression)] for a [str] expression. *)
Definition print_call (expression : str) : str :=
  s "print(" ++ expression ++ s ")".

Definition eval (expression : str) : M W bytes :=
  ret_ <- Pyboard.exec_ (Pyboard.CmdStr (print_call expression)) ;;
  let ret_ := PyBytes.strip ret_ in
  ret ret_.

End Methods.
End PyboardMore.

(** A relay as [Pyboard] builds it, right after the login. *)
Definition relay0 : TelnetToSerial.t :=
  {| TelnetToSerial.read_timeout := Some 10%Q; TelnetToSerial.fifo := [] |}.

(** Pieces of output glued with one sentinel between neighbours. *)
Fixpoint join_sentinel (pieces : list bytes) : bytes :=
  match pieces with
  | [] => []
  | piece :: rest =>
      match rest with
      | [] => piece
      | _ :: _ => piece ++ EOT :: join_sentinel rest
      end
  end.

(** What a peer delivered at the polls among the calls [calls], made
    after the history [past]: the replies to the [read_eager] calls, in
    order. *)
Fixpoint delivered (answer : list tn_event -> bytes) (past calls : list tn_event)
  : bytes :=
  match calls with
  | [] => []
  | ev :: calls' =>
      let past' := past ++ [ev] in
      match ev with
      | EvReadEager => answer past'
      | _ => []
      end ++ delivered answer past' calls'
  end.

(** The raw REPL banner without its final line feed. *)
Definition banner_body : bytes := b "raw REPL; CTRL-B to exit" ++ [CR].

(** The data of the [write] calls in a history, in order. *)
Definition written (h : list tn_event) : list bytes :=
  flat_map (fun ev => match ev with EvWrite data => [data] | _ => [] end) h.

(* ===================================================================== *)
(** ** Facts about the byte primitives *)
(* ===================================================================== *)

Section BytesFacts.

Lemma bytes_eqb_eq (x y : bytes) : bytes_eqb x y = true <-> x = y.
Proof.
  revert y; induction x as [|c x IH]; intros [|d y]; simpl; split; intro E;
    try reflexivity; try discriminate.
  - apply andb_true_iff in E as [Ecd Exy].
    apply Byte.byte_dec_bl in Ecd. apply IH in Exy. congruence.
  - injection E as -> ->. apply andb_true_iff; split.
    + now apply Byte.byte_dec_lb.
    + now apply IH.
Qed.

Lemma bytes_eqb_neq (x y : bytes) : bytes_eqb x y = false <-> x <> y.
Proof.
  split.
  - intros E ->. assert (T : bytes_eqb y y = true) by now apply bytes_eqb_eq.
    congruence.
  - intro N. destruct (bytes_eqb x y) eqn:E; [|reflexivity].
    apply bytes_eqb_eq in E. contradiction.
Qed.

Lemma skipn_length_app {A} (x y : list A) : skipn (length x) (x ++ y) = y.
Proof. now rewrite skipn_app, skipn_all, Nat.sub_diag. Qed.

Lemma tail_slice_last (x : bytes) (c : byte) : tail_slice (x ++ [c]) 1 = [c].
Proof.
  unfold tail_slice.
  replace (length (x ++ [c]) - 1) with (length x)
    by (rewrite length_app; simpl; lia).
  apply skipn_length_app.
Qed.

Lemma endswith_last (x : bytes) (c d : byte) :
  endswith (x ++ [c]) [d] = Byte.eqb c d.
Proof.
  unfold endswith.
  replace (length (x ++ [c]) - length [d]) with (length x)
    by (rewrite length_app; simpl; lia).
  rewrite skipn_length_app.
  replace (length [d] <=? length (x ++ [c])) with true
    by (symmetry; apply Nat.leb_le; rewrite length_app; simpl; lia).
  simpl. now rewrite andb_true_r.
Qed.

Lemma endswith_nil (d : byte) : endswith [] [d] = false.
Proof. reflexivity. Qed.

(** [x.endswith(bytes([d]))] holds exactly when [x] is some [y] followed
    by [d]. *)
Lemma endswith_one_iff (x : bytes) (d : byte) :
  endswith x [d] = true <-> exists y, x = y ++ [d].
Proof.
  destruct x as [|c0 x0].
  - rewrite endswith_nil. split; [discriminate|].
    intros [y E]. destruct y; discriminate.
  - destruct (@exists_last _ (c0 :: x0)) as (y & c & ->); [discriminate|].
    rewrite endswith_last. split.
    + intro E. apply Byte.byte_dec_bl in E. subst. now exists y.
    + intros [z E]. apply app_inj_tail in E as [_ ->]. now apply Byte.byte_dec_lb.
Qed.

Lemma drop_last_last (x : bytes) (c : byte) : drop_last (x ++ [c]) = x.
Proof. apply removelast_last. Qed.

Lemma eqb_EOT_refl : Byte.eqb EOT EOT = true.
Proof. reflexivity. Qed.

Lemma eqb_EOT_false (c : byte) : c <> EOT -> Byte.eqb c EOT = false.
Proof.
  intro N. destruct (Byte.eqb c EOT) eqn:E; [|reflexivity].
  apply Byte.byte_dec_bl in E. contradiction.
Qed.

End BytesFacts.

(* ===================================================================== *)
(** ** Facts about the scripted serial line *)
(* ===================================================================== *)

Section WireFacts.

Lemma incoming_consume (k : nat) (p : wire) :
  incoming (consume k p) = skipn k (incoming p).
Proof. unfold incoming, consume; simpl. now rewrite skipn_app. Qed.

Lemma wire_read_until_step (c : byte) (line stream : bytes) :
  wire_read_until [EOT] line (c :: stream)
  = if Byte.eqb c EOT then line ++ [c]
    else wire_read_until [EOT] (line ++ [c]) stream.
Proof.
  cbn [wire_read_until]. change (length [EOT]) with 1.
  rewrite tail_slice_last. cbn [bytes_eqb]. now rewrite andb_true_r.
Qed.

(** Reading up to the sentinel stops at its first occurrence. *)
Lemma wire_read_until_EOT (line head rest : bytes) :
  ~ In EOT head ->
  wire_read_until [EOT] line (head ++ EOT :: rest) = line ++ head ++ [EOT].
Proof.
  revert line; induction head as [|c head IH]; intros line N.
  - cbn [app]. now rewrite wire_read_until_step.
  - cbn [app]. rewrite wire_read_until_step.
    rewrite eqb_EOT_false by (intro E; apply N; left; now symmetry).
    rewrite IH by (intro I; apply N; now right).
    now rewrite <- app_assoc.
Qed.

(** Without a sentinel the read ends when the stream runs dry. *)
Lemma wire_read_until_dry (line stream : bytes) :
  ~ In EOT stream ->
  wire_read_until [EOT] line stream = line ++ stream.
Proof.
  revert line; induction stream as [|c stream IH]; intros line N.
  - cbn. now rewrite app_nil_r.
  - rewrite wire_read_until_step.
    rewrite eqb_EOT_false by (intro E; apply N; left; now symmetry).
    rewrite IH by (intro I; apply N; now right).
    now rewrite <- app_assoc.
Qed.

(** One sentinel-delimited read on the scripted line. *)
Lemma serial_read_until_EOT (head rest : bytes) (p : wire) :
  ~ In EOT head ->
  incoming p = head ++ EOT :: rest ->
  exists p',
    serial_read_until [EOT] p = (head ++ [EOT], p')
    /\ incoming p' = rest /\ tx p' = tx p.
Proof.
  intros N E. eexists; split; [|split].
  - simpl. rewrite E, wire_read_until_EOT by assumption. reflexivity.
  - rewrite incoming_consume, E.
    replace (head ++ EOT :: rest) with ((head ++ [EOT]) ++ rest)
      by now rewrite <- app_assoc.
    apply skipn_length_app.
  - reflexivity.
Qed.

End WireFacts.

(* ===================================================================== *)
(** ** The session over any serial port *)
(* ===================================================================== *)

Section SessionFacts.
Context {W : Type} `{Serial W} `{Clock W}.

Import Pyboard.

(** [read_until] returns what the port's [read_until(ending)] returns,
    after handing it to the sink; it never raises. *)
Lemma read_until_run (n : nat) (ending : bytes) (timeout : option Q)
    (sink : consumer) (w : W) :
  read_until n ending timeout sink w
  = (Ok (fst (serial_read_until ending w)),
     match sink with
     | Some f => f (fst (serial_read_until ending w)) (snd (serial_read_until ending w))
     | None => snd (serial_read_until ending w)
     end).
Proof.
  unfold read_until, bind, call, act, ret.
  destruct (serial_read_until ending w) as [data w1]; destruct sink; reflexivity.
Qed.

(** C10. The result of [follow] does not depend on its [timeout]
    argument: on every port, from every state and with every sink, two
    runs with any two timeouts return the same pair or raise the same
    error and leave the same world; [read_until] itself ignores both
    [min_num_bytes] and [timeout]. *)
Theorem follow_timeout_irrelevant (t1 t2 : option Q) (sink : consumer) (w : W) :
  follow t1 sink w = follow t2 sink w
  /\ (forall n1 n2 ending,
        read_until n1 ending t1 sink w = read_until n2 ending t2 sink w)
  /\ (forall n ending,
        fst (read_until n ending t1 sink w) = Ok (fst (serial_read_until ending w))).
Proof.
  split; [reflexivity|split]; intros.
  - reflexivity.
  - now rewrite read_until_run.
Qed.

(** C4. If the first read of [follow] does not end with the sentinel
    0x04, [follow] raises PyboardError("timeout waiting for first EOF
    reception") and so returns nothing; if the first read ends with it
    and the second does not, [follow] raises PyboardError("timeout waiting
    for second EOF reception"). *)
Theorem follow_missing_eof (timeout : option Q) (sink : consumer) (w : W)
    (data : bytes) (w1 : W) :
  read_until 1 [EOT] timeout sink w = (Ok data, w1) ->
  (endswith data [EOT] = false ->
     follow timeout sink w
     = (Raise (Raised PyboardError
                 [AStr "timeout waiting for first EOF reception"] 187), w1)
     /\ forall out w', follow timeout sink w <> (Ok out, w'))
  /\ (endswith data [EOT] = true ->
      forall (data_err : bytes) (w2 : W),
        read_until 1 [EOT] timeout None w1 = (Ok data_err, w2) ->
        endswith data_err [EOT] = false ->
        follow timeout sink w
        = (Raise (Raised PyboardError
                    [AStr "timeout waiting for second EOF reception"] 193), w2)
        /\ forall out w', follow timeout sink w <> (Ok out, w')).
Proof.
  intro R1. split.
  - intro E. assert (F : follow timeout sink w = (Raise first_eof_timeout, w1)).
    { unfold follow, bind at 1. rewrite R1, E. reflexivity. }
    split; [exact F|]. intros out w'. rewrite F. discriminate.
  - intros E data_err w2 R2 E2.
    assert (F : follow timeout sink w = (Raise second_eof_timeout, w2)).
    { unfold follow, bind at 1. rewrite R1, E. cbn [negb].
      unfold bind at 1. rewrite R2, E2. reflexivity. }
    split; [exact F|]. intros out w'. rewrite F. discriminate.
Qed.

(** C9. In [enter_raw_repl] the guard [not self.isPrompt] tests a bound
    method object, which is always true, so the raise at line 175 is never
    reached: every error comes from line 173, and [enter_raw_repl] raises
    exactly when the data read does not end with the banner
    b"raw REPL; CTRL-B to exit\r\n"; otherwise it returns after the final
    [flushInput], without any [read_all]. *)
Theorem enter_raw_repl_raises_iff (rawdelay : Q) (w : W) :
  let w0 :=
    serial_write [CR; x01]
      (serial_flushInput
         (serial_write [CR; x03; x03]
            (if Qgtb rawdelay 0 then sleep rawdelay w else w))) in
  let data := fst (serial_read_until raw_repl_banner w0) in
  let suffix := b "raw REPL; CTRL-B to exit" ++ [x0d; x0a] in
  truthy isPrompt_attr = true
  /\ (forall e, fst (enter_raw_repl rawdelay w) = Raise e ->
        e = Raised PyboardError [AStr "could not enter raw repl"] 173
        /\ exn_line e <> 175%N)
  /\ ((exists e, fst (enter_raw_repl rawdelay w) = Raise e)
      <-> endswith data suffix = false)
  /\ (endswith data suffix = true ->
        enter_raw_repl rawdelay w
        = (Ok tt, serial_flushInput (snd (serial_read_until raw_repl_banner w0)))).
Proof.
  intros w0 data suffix.
  assert (Run : enter_raw_repl rawdelay w
                = if endswith data suffix
                  then (Ok tt, serial_flushInput
                                 (snd (serial_read_until raw_repl_banner w0)))
                  else (Raise (could_not_enter 173),
                        snd (serial_read_until raw_repl_banner w0))).
  { unfold enter_raw_repl. unfold bind at 1.
    assert (D : (if Qgtb rawdelay 0 then act (sleep rawdelay) else ret tt) w
                = (Ok tt, if Qgtb rawdelay 0 then sleep rawdelay w else w))
      by (destruct (Qgtb rawdelay 0); reflexivity).
    rewrite D. unfold bind at 1, act at 1. unfold bind at 1, act at 1.
    unfold bind at 1, act at 1. unfold bind at 1.
    rewrite read_until_run. fold w0. fold data.
    change raw_repl_banner with suffix at 1.
    destruct (endswith data suffix); reflexivity. }
  split; [reflexivity|]. rewrite Run.
  destruct (endswith data suffix); cbn [fst].
  - split; [intros e E; discriminate|].
    split; [split; [intros [e E]; discriminate|discriminate]|].
    reflexivity.
  - split; [intros e E; injection E as <-; split; [reflexivity|discriminate]|].
    split; [split; [reflexivity|intros _; eexists; reflexivity]|].
    discriminate.
Qed.

(** [exec_raw_no_follow] in one equation: the writes, the read of 2
    bytes, the comparison. *)
Lemma exec_raw_no_follow_run (command : command) (payload : bytes) (w : W) :
  to_command_bytes command = Some payload ->
  exec_raw_no_follow command w
  = let r := serial_read 2 (serial_write [EOT] (write_chunks payload w)) in
    if bytes_eqb (fst r) (b "OK") then (Ok tt, snd r)
    else (Raise could_not_exec, snd r).
Proof.
  intro C. unfold exec_raw_no_follow. rewrite C. unfold bind, ret, act, call.
  cbv zeta.
  destruct (serial_read 2 (serial_write [EOT] (write_chunks payload w)))
    as [d w']; cbn [fst snd].
  destruct (bytes_eqb d (b "OK")); reflexivity.
Qed.

(** C5. After the command chunks and the 0x04 byte are written,
    [exec_raw_no_follow] reads 2 bytes; it succeeds if they are b"OK" and
    raises PyboardError("could not exec command") for any other value of
    the read, shorter ones included. *)
Theorem exec_raw_no_follow_ack (command : command) (payload : bytes) (w : W) :
  to_command_bytes command = Some payload ->
  let w1 := serial_write [EOT] (write_chunks payload w) in
  let data := fst (serial_read 2 w1) in
  let w2 := snd (serial_read 2 w1) in
  (data = b "OK" -> exec_raw_no_follow command w = (Ok tt, w2))
  /\ (data <> b "OK" ->
      exec_raw_no_follow command w
      = (Raise (Raised PyboardError [AStr "could not exec command"] 219), w2))
  /\ (fst (exec_raw_no_follow command w) = Ok tt <-> data = b "OK").
Proof.
  intros C w1 data w2.
  rewrite (exec_raw_no_follow_run command payload w C). cbv zeta.
  fold w1. fold data. fold w2.
  destruct (bytes_eqb data (b "OK")) eqn:E.
  - apply bytes_eqb_eq in E. split; [intros _; reflexivity|].
    split; [intro N; contradiction|].
    split; [intros _; assumption|intros _; reflexivity].
  - apply bytes_eqb_neq in E. split; [intro D; contradiction|].
    split; [intros _; reflexivity|]. cbn [fst].
    split; [discriminate|intro D; contradiction].
Qed.

End SessionFacts.

(* ===================================================================== *)
(** ** Chunked transmission *)
(* ===================================================================== *)

Section Chunking.

Lemma firstn_then_firstn {A} (a c : nat) (l : list A) :
  firstn a l ++ firstn c (skipn a l) = firstn (a + c) l.
Proof.
  revert l; induction a as [|a IH]; intros l; [reflexivity|].
  destruct l as [|x l]; [cbn; now rewrite firstn_nil|].
  cbn [firstn skipn app Nat.add]. now rewrite IH.
Qed.

(** The chunk taken at offset [a] extends the prefix by 256 bytes. *)
Lemma slice_extends_prefix (l : bytes) (a : nat) :
  firstn a l ++ slice l a (min (a + 256) (length l)) = firstn (a + 256) l.
Proof.
  unfold slice. rewrite firstn_then_firstn.
  destruct (Nat.le_gt_cases (a + 256) (length l)) as [L | G].
  - f_equal. lia.
  - rewrite !firstn_all2 by lia. reflexivity.
Qed.

Lemma slice_length (l : bytes) (a : nat) :
  length (slice l a (min (a + 256) (length l))) <= 256.
Proof.
  unfold slice. rewrite length_firstn. lia.
Qed.

(** The chunks the loop sends, in order. *)
Lemma chunks_prefix (l : bytes) (m : nat) :
  concat (map (fun i => slice l i (min (i + 256) (length l)))
              (map (fun k => k * 256) (seq 0 m)))
  = firstn (m * 256) l.
Proof.
  induction m as [|m IH]; [reflexivity|].
  rewrite seq_S, !map_app, concat_app, IH. cbn [map concat Nat.add].
  rewrite app_nil_r, slice_extends_prefix. f_equal. lia.
Qed.

Lemma chunks_cover (l : bytes) :
  concat (map (fun i => slice l i (min (i + 256) (length l)))
              (range0 (length l) 256)) = l.
Proof.
  unfold range0. rewrite chunks_prefix. apply firstn_all2.
  pose proof (Nat.div_mod_eq (length l + 256 - 1) 256) as D.
  pose proof (Nat.mod_upper_bound (length l + 256 - 1) 256) as U.
  lia.
Qed.

Lemma chunks_small (l : bytes) (idx : list nat) :
  Forall (fun c : bytes => length c <= 256)
         (map (fun i => slice l i (min (i + 256) (length l))) idx).
Proof.
  apply Forall_forall. intros c I. apply in_map_iff in I as (i & <- & _).
  apply slice_length.
Qed.

(** On the scripted line the loop appends one log entry per index and
    leaves the input alone. *)
Lemma write_chunks_wire (l : bytes) (p : wire) :
  tx (Pyboard.write_chunks l p)
  = tx p ++ map (fun i => slice l i (min (i + 256) (length l)))
                (range0 (length l) 256)
  /\ incoming (Pyboard.write_chunks l p) = incoming p.
Proof.
  unfold Pyboard.write_chunks.
  generalize (range0 (length l) 256) as idx. intro idx.
  revert p; induction idx as [|i idx IH]; intro p.
  - cbn. now rewrite app_nil_r.
  - cbn [fold_left map]. destruct (IH
      (sleep (1 # 100)
         (serial_write (slice l i (min (i + 256) (length l))) p))) as [T I].
    rewrite T, I. cbn. now rewrite <- app_assoc.
Qed.

End Chunking.

(* ===================================================================== *)
(** ** The session on the scripted serial line *)
(* ===================================================================== *)

Section WireSession.

Import Pyboard.

Lemma follow_framed (timeout : option Q) (sink : consumer)
    (normal err rest : bytes) (p : wire) :
  input_preserving sink ->
  ~ In EOT normal -> ~ In EOT err ->
  incoming p = normal ++ [EOT] ++ err ++ [EOT] ++ rest ->
  exists p', follow timeout sink p = (Ok (normal, err), p').
Proof.
  intros S N1 N2 I.
  destruct (serial_read_until_EOT normal (err ++ [EOT] ++ rest) p N1 I)
    as (p1 & R1 & I1 & _).
  set (p1' := match sink with Some f => f (normal ++ [EOT]) p1 | None => p1 end).
  assert (I1' : incoming p1' = err ++ EOT :: rest).
  { subst p1'. destruct sink as [f|]; [rewrite (S f eq_refl)|]; exact I1. }
  destruct (serial_read_until_EOT err rest p1' N2 I1') as (p2 & R2 & _ & _).
  exists (serial_flushInput p2).
  unfold follow. unfold bind at 1. rewrite read_until_run, R1. cbn [fst snd].
  rewrite endswith_last, eqb_EOT_refl. cbn [negb]. rewrite drop_last_last.
  fold p1'. unfold bind at 1. rewrite read_until_run, R2. cbn [fst snd].
  rewrite endswith_last, eqb_EOT_refl. cbn [negb]. rewrite drop_last_last.
  reflexivity.
Qed.

(** The same stream read in two ways: unless the output parts are free of
    the sentinel, a stream does not determine them. *)
Remark framing_ambiguous :
  [EOT] ++ [EOT] ++ b "" ++ [EOT] = b "" ++ [EOT] ++ [EOT] ++ [EOT].
Proof. reflexivity. Qed.

(** C1. On a byte stream made of normal-output bytes, the sentinel 0x04,
    error-output bytes and a second sentinel 0x04 (the output bytes being
    free of the sentinel), [follow] returns the pair (normal-output,
    error-output), both sentinels stripped. *)
Theorem follow_splits_framed_response (timeout : option Q) (sink : consumer)
    (normal err : bytes) (p : wire) :
  input_preserving sink ->
  ~ In EOT normal -> ~ In EOT err ->
  incoming p = normal ++ [EOT] ++ err ++ [EOT] ->
  fst (follow timeout sink p) = Ok (normal, err).
Proof.
  intros S N1 N2 I.
  destruct (follow_framed timeout sink normal err [] p S N1 N2) as [p' F].
  - now rewrite app_nil_r.
  - now rewrite F.
Qed.

Lemma exec_raw_no_follow_wire (command : command) (payload stream : bytes)
    (p : wire) :
  to_command_bytes command = Some payload ->
  incoming p = b "OK" ++ stream ->
  exists p', exec_raw_no_follow command p = (Ok tt, p') /\ incoming p' = stream.
Proof.
  intros C I.
  rewrite (exec_raw_no_follow_run command payload p C). cbv zeta.
  set (p1 := serial_write [EOT] (write_chunks payload p)).
  assert (I1 : incoming p1 = b "OK" ++ stream).
  { subst p1. destruct (write_chunks_wire payload p) as [_ J].
    unfold incoming in *. cbn. exact (eq_trans J I). }
  assert (D : fst (serial_read 2 p1) = b "OK")
    by (cbn [serial_read wire_serial fst]; rewrite I1; reflexivity).
  rewrite D. eexists; split; [reflexivity|].
  cbn [serial_read wire_serial snd]. rewrite incoming_consume, I1. reflexivity.
Qed.

(** C3. For every command payload, [exec_raw_no_follow] writes the payload
    in successive chunks of at most 256 bytes whose concatenation in order
    is the payload, then a single byte 0x04 after the last chunk; there
    are ceil(len/256) chunks, none for the empty payload. *)
Theorem exec_raw_no_follow_chunks (command : command) (payload : bytes)
    (p : wire) :
  to_command_bytes command = Some payload ->
  exists chunks : list bytes,
    tx (snd (exec_raw_no_follow command p)) = tx p ++ chunks ++ [[EOT]]
    /\ Forall (fun c : bytes => length c <= 256) chunks
    /\ concat chunks = payload
    /\ length chunks = (length payload + 255) / 256.
Proof.
  intro C.
  exists (map (fun i => slice payload i (min (i + 256) (length payload)))
              (range0 (length payload) 256)).
  split; [|split; [|split]].
  - rewrite (exec_raw_no_follow_run command payload p C). cbv zeta.
    destruct (write_chunks_wire payload p) as [T _].
    set (p1 := serial_write [EOT] (write_chunks payload p)).
    assert (T1 : tx (snd (serial_read 2 p1))
                 = tx p ++ map (fun i => slice payload i
                                           (min (i + 256) (length payload)))
                               (range0 (length payload) 256) ++ [[EOT]]).
    { change (tx (snd (serial_read 2 p1)))
        with (tx (write_chunks payload p) ++ [[EOT]]).
      rewrite T. now rewrite <- app_assoc. }
    destruct (bytes_eqb (fst (serial_read 2 p1)) (b "OK")); exact T1.
  - apply chunks_small.
  - apply chunks_cover.
  - unfold range0. rewrite !length_map, length_seq. f_equal. lia.
Qed.





End WireSession.

(* ===================================================================== *)
(** ** The login relay *)
(* ===================================================================== *)

Section RelayFacts.

Import TelnetToSerial.

Lemma Qgtb_zero_budget (rt : Q) : (0 <= rt)%Q -> Qgtb (inject_Z 0) (4 * rt) = false.
Proof.
  intro P. unfold Qgtb. apply negb_false_iff, Qle_bool_iff.
  change (inject_Z 0) with 0%Q. apply Qmult_le_0_compat; [discriminate|exact P].
Qed.

(** With a peer that stays silent the polling loop never leaves: the
    counter is back at 0 whenever it is compared with the budget. *)
Lemma read_poll_silent (fuel : nat) (self : t) (size : nat) (timeout_count : Z)
    (p : peer) :
  (forall h, reply p h = []) ->
  length (fifo self) < size ->
  match read_timeout self with
  | Some rt => (0 <= rt)%Q
  | None => True
  end ->
  read_poll fuel self size timeout_count p = None.
Proof.
  intros Silent Short Budget.
  revert timeout_count p Silent.
  induction fuel as [|fuel IH]; intros timeout_count p Silent; [reflexivity|].
  cbn [read_poll].
  apply Nat.ltb_lt in Short as Short'. rewrite Short'.
  cbn [tn_read_eager peer_telnet ask]. rewrite Silent. cbn [length Nat.eqb negb].
  replace (match read_timeout self with
           | Some rt => Qgtb (inject_Z 0) (4 * rt)
           | None => false
           end) with false.
  - apply IH. intro h. apply Silent.
  - destruct (read_timeout self) as [rt|]; [|reflexivity].
    symmetry. now apply Qgtb_zero_budget.
Qed.

(** C2 (the code departs from it). With the read timeout of 10 that
    [Pyboard] configures and a transport that never supplies a byte,
    [read(size)] for a positive [size] is still polling after any number
    of iterations: it never returns. *)
Theorem relay_read_never_returns (fuel size : nat) :
  read fuel {| read_timeout := Some 10%Q; fifo := [] |} (S size) silent_peer = None.
Proof.
  unfold read. rewrite read_poll_silent; try reflexivity.
  - cbn. lia.
  - cbn. discriminate.
Qed.

(** Bring the logged history into the shape [history p ++ [e1; ..; en]]. *)
Ltac flatten_history :=
  cbn [reply history fst snd]; repeat rewrite <- app_assoc; cbn [app].

(** The loop does leave once the FIFO is long enough, and the [break] is
    taken when the budget is negative. *)
Example relay_read_delivers :
  option_map fst
    (read 3 {| read_timeout := Some 10%Q; fifo := [] |} 3 chatty_peer)
  = Some (b "aba", {| read_timeout := Some 10%Q; fifo := b "b" |}).
Proof. reflexivity. Qed.

Example relay_read_negative_budget :
  option_map fst
    (read 1 {| read_timeout := Some (-1)%Q; fifo := [] |} 1 silent_peer)
  = Some (b "", {| read_timeout := Some (-1)%Q; fifo := [] |}).
Proof. reflexivity. Qed.

(** The state of the connection after the first [n] calls of the script. *)
Lemma init_run (ip user password : str) (rt : option Q) (p : peer)
    (u pw : bytes) :
  encode_ascii user = Some u ->
  encode_ascii password = Some pw ->
  let sc := handshake_script ip u pw rt in
  let at_ n := {| reply := reply p; history := history p ++ firstn n sc |} in
  __init__ ip user password rt p
  = if contains (reply p (history p ++ firstn 2 sc)) login_prompt then
      if contains (reply p (history p ++ firstn 4 sc)) password_prompt then
        if contains (reply p (history p ++ firstn 7 sc)) banner_tail then
          (Ok {| read_timeout := rt; fifo := [] |}, at_ 7)
        else (Raise handshake_failed, at_ 7)
      else (Raise handshake_failed, at_ 4)
    else (Raise handshake_failed, at_ 2).
Proof.
  intros U P sc at_. subst sc at_.
  unfold __init__, ascii_bytes. rewrite U, P.
  unfold bind, act, call, ret, raise.
  cbn [tn_open tn_read_until tn_write sleep peer_telnet peer_clock].
  unfold ask, log. cbn [handshake_script firstn].
  flatten_history.
  match goal with
  | |- (if ?c then _ else _) _ = _ => destruct c; [|reflexivity]
  end.
  flatten_history.
  match goal with
  | |- (if ?c then _ else _) _ = _ => destruct c; [|reflexivity]
  end.
  flatten_history.
  match goal with
  | |- (if ?c then _ else _) _ = _ => destruct c; reflexivity
  end.
Qed.

(** C7. For ASCII credentials, the construction of the relay succeeds only
    when "Login as:", "Password:" and "for more information." are each
    found, in that order, in what the three reads return; if one of them
    is missing the construction raises PyboardError("Failed to establish a
    telnet connection with the board") and yields no object; the FIFO is
    created, empty, on success only; and the calls made are an initial
    segment of one pass over the login script, so nothing is retried. *)
Theorem relay_handshake_all_or_nothing (ip user password : str)
    (rt : option Q) (p : peer) (u pw : bytes) :
  encode_ascii user = Some u ->
  encode_ascii password = Some pw ->
  let sc := handshake_script ip u pw rt in
  let seen1 := contains (reply p (history p ++ firstn 2 sc)) (b "Login as:") in
  let seen2 := contains (reply p (history p ++ firstn 4 sc)) (b "Password:") in
  let seen3 :=
    contains (reply p (history p ++ firstn 7 sc)) (b "for more information.") in
  let run := __init__ ip user password rt p in
  (forall self, fst run = Ok self ->
     (seen1 = true /\ seen2 = true /\ seen3 = true)
     /\ self = {| read_timeout := rt; fifo := [] |}
     /\ history (snd run) = history p ++ sc)
  /\ (seen1 && seen2 && seen3 = true ->
      fst run = Ok {| read_timeout := rt; fifo := [] |})
  /\ (seen1 && seen2 && seen3 = false ->
      fst run
      = Raise (Raised PyboardError
                 [AStr "Failed to establish a telnet connection with the board"] 78))
  /\ (exists n, n <= 7 /\ history (snd run) = history p ++ firstn n sc).
Proof.
  intros U P sc seen1 seen2 seen3 run.
  pose proof (init_run ip user password rt p u pw U P) as Run.
  cbv zeta in Run. fold sc in Run.
  change (contains (reply p (history p ++ firstn 2 sc)) login_prompt)
    with seen1 in Run.
  change (contains (reply p (history p ++ firstn 4 sc)) password_prompt)
    with seen2 in Run.
  change (contains (reply p (history p ++ firstn 7 sc)) banner_tail)
    with seen3 in Run.
  fold run in Run. rewrite Run.
  destruct seen1, seen2, seen3; cbn [fst snd andb history];
    (split; [intros self E; try discriminate;
             injection E as <-; repeat split; reflexivity|]);
    (split; [intro E; try discriminate; reflexivity|]);
    (split; [intro E; try discriminate; reflexivity|]);
    first [ exists 7; split; [lia|reflexivity]
          | exists 4; split; [lia|reflexivity]
          | exists 2; split; [lia|reflexivity] ].
Qed.

End RelayFacts.

(* ===================================================================== *)
(** ** Transport selection *)
(* ===================================================================== *)

Section TransportFacts.
Context {U : UnicodeData}.

Import Pyboard.

Lemma isdigit_ascii (c : N) : (c < 128)%N -> isdigit c = ascii_digit c.
Proof. intro L. unfold isdigit. apply N.ltb_lt in L. now rewrite L. Qed.

(** C8, as the code has it. The constructor selects the network login
    transport exactly when the address is non-empty, its first and last
    characters satisfy [str.isdigit] and it contains exactly three '.';
    otherwise it selects the local serial port.  When the first and last
    characters are ASCII this is the rule "first and last characters are
    ASCII digits and exactly three dots".  "192.168.1.1" is a network
    target, "/dev/ttyACM0" and "COM3" are serial paths. *)
Theorem transport_selection (device : str) (baudrate : Z) (user password : str)
    (wait : Z) (rawdelay : Q) :
  let chosen := serial (__init__ device baudrate user password wait rawdelay) in
  (is_relay chosen = true
   <-> device <> []
       /\ isdigit (nth 0 device 0%N) = true
       /\ isdigit (last device 0%N) = true
       /\ count device 46%N = 3)
  /\ (is_relay chosen = true
      -> chosen = Relay device user password (Some 10%Q))
  /\ (is_relay chosen = false -> exists cfg, chosen = Port device cfg)
  /\ ((nth 0 device 0 < 128)%N -> (last device 0 < 128)%N ->
      is_relay chosen = ascii_ipv4_rule device)
  /\ is_relay (serial (__init__ (s "192.168.1.1") baudrate user password
                         wait rawdelay)) = true
  /\ is_relay (serial (__init__ (s "/dev/ttyACM0") baudrate user password
                         wait rawdelay)) = false
  /\ is_relay (serial (__init__ (s "COM3") baudrate user password
                         wait rawdelay)) = false.
Proof.
  intro chosen. subst chosen. unfold __init__.
  set (cond := truthy (StrObj device) && isdigit (nth 0 device 0%N)
               && isdigit (last device 0%N) && (count device 46%N =? 3)).
  assert (C : cond = true
              <-> device <> [] /\ isdigit (nth 0 device 0%N) = true
                  /\ isdigit (last device 0%N) = true /\ count device 46%N = 3).
  { subst cond. rewrite !andb_true_iff, Nat.eqb_eq.
    assert (T : truthy (StrObj device) = true <-> device <> []).
    { destruct device; cbn; split; congruence. }
    rewrite T. tauto. }
  split; [|split; [|split; [|split]]].
  - rewrite <- C. destruct cond; cbn; split; congruence.
  - destruct cond; cbn; [reflexivity|discriminate].
  - destruct cond; cbn; [discriminate|]. intros _. eexists; reflexivity.
  - intros A1 A2. unfold ascii_ipv4_rule.
    replace (is_relay (serial (if cond then _ else _))) with cond
      by (destruct cond; reflexivity).
    subst cond. destruct device as [|c device]; [reflexivity|].
    cbn [nth] in *. rewrite (isdigit_ascii c A1), (isdigit_ascii _ A2).
    reflexivity.
  - repeat split; reflexivity.
Qed.

End TransportFacts.

(* ===================================================================== *)
(** ** Concrete runs *)
(* ===================================================================== *)

Section Runs.

Import Pyboard.

Ltac no_sentinel :=
  let I := fresh "I" in intro I; cbn in I; intuition discriminate.

Lemma follow_splits_framed_response_witness :
  fst (follow (Some 10%Q) None (wire_of (b "hello" ++ [EOT] ++ b "" ++ [EOT])))
  = Ok (b "hello", b "").
Proof.
  apply (follow_splits_framed_response (Some 10%Q) None (b "hello") (b "")).
  - intros f E; discriminate.
  - no_sentinel.
  - no_sentinel.
  - reflexivity.
Defined.

Lemma exec_raw_no_follow_chunks_witness :
  exists chunks : list bytes,
    tx (snd (exec_raw_no_follow (CmdBytes (repeat x61 600)) (wire_of (b "OK"))))
    = [] ++ chunks ++ [[EOT]]
    /\ Forall (fun c : bytes => length c <= 256) chunks
    /\ concat chunks = repeat x61 600
    /\ length chunks = 3.
Proof.
  exact (exec_raw_no_follow_chunks (CmdBytes (repeat x61 600)) (repeat x61 600)
           (wire_of (b "OK")) eq_refl).
Defined.

Lemma follow_missing_eof_witness :
  fst (follow None (Some stdout_write_bytes) (wire_of (b "hello")))
  = Raise first_eof_timeout
  /\ fst (follow None None (wire_of (b "hi" ++ [EOT] ++ b "oops")))
     = Raise second_eof_timeout.
Proof.
  split.
  - refine (f_equal fst (proj1 (proj1
      (follow_missing_eof None (Some stdout_write_bytes) (wire_of (b "hello"))
         (b "hello") _ eq_refl) eq_refl))).
  - refine (f_equal fst (proj1 (proj2
      (follow_missing_eof None None (wire_of (b "hi" ++ [EOT] ++ b "oops"))
         (b "hi" ++ [EOT]) _ eq_refl) eq_refl (b "oops") _ eq_refl eq_refl))).
Defined.

Lemma exec_raw_no_follow_ack_witness :
  fst (exec_raw_no_follow (CmdStr (s "print(1)")) (wire_of (b "OK"))) = Ok tt
  /\ fst (exec_raw_no_follow (CmdStr (s "print(1)")) (wire_of (b "O")))
     = Raise could_not_exec.
Proof.
  split.
  - refine (f_equal fst (proj1
      (exec_raw_no_follow_ack (CmdStr (s "print(1)")) (b "print(1)")
         (wire_of (b "OK")) eq_refl) eq_refl)).
  - refine (f_equal fst (proj1 (proj2
      (exec_raw_no_follow_ack (CmdStr (s "print(1)")) (b "print(1)")
         (wire_of (b "O")) eq_refl)) _)).
    discriminate.
Defined.



Lemma relay_handshake_all_or_nothing_witness :
  fst (TelnetToSerial.__init__ (s "192.168.1.1") (s "micro") (s "python")
         (Some 10%Q) prompt_peer)
  = Ok {| TelnetToSerial.read_timeout := Some 10%Q; TelnetToSerial.fifo := [] |}
  /\ fst (TelnetToSerial.__init__ (s "192.168.1.1") (s "micro") (s "python")
            (Some 10%Q) silent_peer)
     = Raise TelnetToSerial.handshake_failed.
Proof.
  split.
  - refine (proj1 (proj2 (relay_handshake_all_or_nothing (s "192.168.1.1")
      (s "micro") (s "python") (Some 10%Q) prompt_peer (b "micro") (b "python")
      eq_refl eq_refl)) eq_refl).
  - refine (proj1 (proj2 (proj2 (relay_handshake_all_or_nothing (s "192.168.1.1")
      (s "micro") (s "python") (Some 10%Q) silent_peer (b "micro") (b "python")
      eq_refl eq_refl))) eq_refl).
Defined.

Lemma enter_raw_repl_raises_iff_witness :
  fst (enter_raw_repl 0 (wire_of (b "MicroPython" ++ raw_repl_banner ++ b ">")))
  = Ok tt
  /\ exists e, fst (enter_raw_repl 0 (wire_of (b "MicroPython"))) = Raise e.
Proof.
  split.
  - refine (f_equal fst (proj2 (proj2 (proj2
      (enter_raw_repl_raises_iff 0
         (wire_of (b "MicroPython" ++ raw_repl_banner ++ b ">"))))) eq_refl)).
  - refine (proj2 (proj1 (proj2 (proj2
      (enter_raw_repl_raises_iff 0 (wire_of (b "MicroPython")))))) eq_refl).
Defined.

Lemma transport_selection_witness :
  is_relay (serial (@__init__ arabic_indic (s "10.0.0.7") 115200 (s "micro")
                      (s "python") 0 0))
  = ascii_ipv4_rule (s "10.0.0.7").
Proof.
  refine (proj1 (proj2 (proj2 (proj2
    (@transport_selection arabic_indic (s "10.0.0.7") 115200 (s "micro")
       (s "python") 0 0)))) _ _); reflexivity.
Defined.

(** C8, as the specification words it, fails: the address U+0663 ".1.1.1"
    begins with an Arabic-Indic digit, which is not an ASCII digit, and is
    nevertheless given to the network login transport. *)
Lemma transport_selection_not_ascii_only :
  let device := 1635%N :: s ".1.1.1" in
  ~ (is_relay (serial (@__init__ arabic_indic device 115200 (s "micro")
                         (s "python") 0 0)) = true
     <-> ascii_ipv4_rule device = true).
Proof.
  intros device [To _]. specialize (To eq_refl). discriminate To.
Qed.

End Runs.

(* ===================================================================== *)
(** ** The relay's FIFO *)
(* ===================================================================== *)

Section RelayFifoFacts.
Context {W : Type} `{Telnet W} `{Clock W}.

Import TelnetToSerial.

(** The second loop of [read] hands out the head of the FIFO, up to
    [size] bytes in all, and keeps the rest in order. *)
Lemma drain_spec (size : nat) (data fifo : list byte) :
  drain size data fifo
  = (data ++ firstn (size - length data) fifo,
     skipn (size - length data) fifo).
Proof.
  revert data; induction fifo as [|c fifo IH]; intro data.
  - cbn [drain]. now rewrite firstn_nil, skipn_nil, app_nil_r.
  - cbn [drain]. destruct (length data <? size) eqn:L.
    + apply Nat.ltb_lt in L. rewrite IH, length_app. cbn [length].
      replace (size - length data) with (S (size - (length data + 1))) by lia.
      cbn [firstn skipn]. now rewrite <- app_assoc.
    + apply Nat.ltb_ge in L.
      replace (size - length data) with 0 by lia.
      cbn [firstn skipn]. now rewrite app_nil_r.
Qed.

(** What the polling loop guarantees when it is left: the FIFO has only
    grown at its tail, and either it is long enough or the [break] was
    taken, which needs a negative budget. *)
Lemma read_poll_exit (fuel : nat) (self self' : t) (size : nat)
    (timeout_count : Z) (w w' : W) :
  read_poll fuel self size timeout_count w = Some (self', w') ->
  read_timeout self' = read_timeout self
  /\ (exists received, fifo self' = fifo self ++ received)
  /\ (size <= length (fifo self')
      \/ exists rt, read_timeout self = Some rt /\ (rt < 0)%Q).
Proof.
  revert self timeout_count w.
  induction fuel as [|fuel IH]; intros self timeout_count w R; [discriminate|].
  cbn [read_poll] in R.
  destruct (length (fifo self) <? size) eqn:L.
  - destruct (tn_read_eager w) as [data w1].
    destruct (negb (length data =? 0)).
    + apply IH in R as (T & (received & F) & E). cbn [extend read_timeout fifo] in *.
      split; [exact T|]. split; [|exact E].
      exists (data ++ received). now rewrite F, app_assoc.
    + destruct (read_timeout self) as [rt|] eqn:RT.
      * destruct (Qgtb (inject_Z 0) (4 * rt)) eqn:G.
        -- injection R as <- <-. split; [exact RT|].
           split; [exists []; now rewrite app_nil_r|].
           right. exists rt. split; [reflexivity|].
           destruct (Qlt_le_dec rt 0) as [N | P]; [exact N|].
           rewrite (Qgtb_zero_budget rt P) in G. discriminate.
        -- apply IH in R as (T & F & E). rewrite RT in T, E.
           exact (conj T (conj F E)).
      * apply IH in R as (T & F & E). rewrite RT in T, E.
        exact (conj T (conj F E)).
  - injection R as <- <-. apply Nat.ltb_ge in L.
    split; [reflexivity|]. split; [exists []; now rewrite app_nil_r|].
    now left.
Qed.

(** The polling loop is left at once when the FIFO is long enough. *)
Lemma read_poll_served (fuel : nat) (self : t) (size : nat) (tc : Z) (w : W) :
  size <= length (fifo self) ->
  read_poll (S fuel) self size tc w = Some (self, w).
Proof.
  intro L. cbn [read_poll]. apply Nat.ltb_ge in L. now rewrite L.
Qed.

(** A read that the FIFO can serve returns its first [size] bytes at once,
    keeps the rest, and does not touch the connection. *)
Theorem relay_read_buffered (fuel : nat) (self : t) (size : nat) (w : W) :
  size <= length (fifo self) ->
  read (S fuel) self size w
  = Some (firstn size (fifo self),
          {| read_timeout := read_timeout self; fifo := skipn size (fifo self) |},
          w).
Proof.
  intro L. unfold read. rewrite read_poll_served by exact L.
  rewrite drain_spec. cbn [length app]. now rewrite Nat.sub_0_r.
Qed.

(** With no read timeout or a non-negative one, a read that returns
    returns exactly [size] bytes. *)
Theorem relay_read_exact (fuel : nat) (self self' : t) (size : nat)
    (data : bytes) (w w' : W) :
  match read_timeout self with
  | Some rt => (0 <= rt)%Q
  | None => True
  end ->
  read fuel self size w = Some (data, self', w') ->
  length data = size.
Proof.
  unfold read. intros B R.
  destruct (read_poll fuel self size 0 w) as [[self1 w1]|] eqn:P; [|discriminate].
  apply read_poll_exit in P as (_ & _ & E).
  rewrite drain_spec in R. cbn [length app] in R. rewrite Nat.sub_0_r in R.
  injection R as <- _ _. rewrite length_firstn.
  destruct E as [Long | (rt & RT & Neg)]; [lia|].
  rewrite RT in B. exfalso. exact (Qlt_not_le _ _ Neg B).
Qed.

(** [inWaiting] returns the depth of the FIFO as it leaves it; it polls
    the connection, once, only when the FIFO is empty; and a read of the
    reported number of bytes then returns the whole FIFO at once. *)
Theorem inWaiting_reports_depth (fuel : nat) (self : t) (w : W) :
  let n := fst (fst (inWaiting self w)) in
  let self' := snd (fst (inWaiting self w)) in
  let w' := snd (inWaiting self w) in
  n = length (fifo self')
  /\ (fifo self <> [] -> self' = self /\ w' = w)
  /\ (fifo self = [] ->
      fifo self' = fst (tn_read_eager w) /\ w' = snd (tn_read_eager w))
  /\ read (S fuel) self' n w'
     = Some (fifo self', {| read_timeout := read_timeout self; fifo := [] |}, w').
Proof.
  cbv zeta. unfold inWaiting.
  destruct (fifo self) as [|c rest] eqn:F.
  - cbn [length Nat.eqb]. destruct (tn_read_eager w) as [data w1].
    cbn [fst snd extend fifo]. rewrite F. cbn [app].
    split; [reflexivity|]. split; [congruence|]. split; [now split|].
    unfold read.
    rewrite read_poll_served by (cbn [extend fifo]; rewrite F; cbn [app]; lia).
    rewrite drain_spec. cbn [extend fifo read_timeout length app].
    rewrite F, Nat.sub_0_r. cbn [app].
    now rewrite firstn_all, skipn_all.
  - cbn [length Nat.eqb fst snd]. rewrite F.
    split; [reflexivity|]. split; [now split|]. split; [discriminate|].
    unfold read. rewrite read_poll_served by (rewrite F; cbn; lia).
    rewrite drain_spec. cbn [length app]. rewrite F, Nat.sub_0_r.
    change (S (length rest)) with (length (c :: rest)).
    now rewrite firstn_all, skipn_all.
Qed.

End RelayFifoFacts.

(* ===================================================================== *)
(** ** Output streaming on the scripted serial line *)
(* ===================================================================== *)

Section StreamingFacts.

Import Pyboard.

Lemma remove_byte_free (x : bytes) : ~ In EOT x -> remove_byte EOT x = x.
Proof.
  induction x as [|c x IH]; intro N; [reflexivity|].
  cbn [remove_byte filter].
  rewrite eqb_EOT_false by (intro E; apply N; left; now symmetry).
  cbn [negb]. f_equal. apply IH. intro I; apply N; now right.
Qed.

Lemma remove_byte_clean (x : bytes) : ~ In EOT (remove_byte EOT x).
Proof.
  unfold remove_byte. intro I. apply filter_In in I as [_ E].
  discriminate E.
Qed.

Lemma remove_byte_app (x y : bytes) :
  remove_byte EOT (x ++ y) = remove_byte EOT x ++ remove_byte EOT y.
Proof. apply filter_app. Qed.

(** [stdout_write_bytes] leaves the port's input alone. *)
Lemma stdout_sink_input_preserving :
  input_preserving (Some stdout_write_bytes).
Proof. intros f E d q. injection E as <-. reflexivity. Qed.

(** Every byte string is a sequence of sentinel-free pieces with one
    sentinel between neighbours. *)
Lemma join_sentinel_covers (x : bytes) :
  exists piece pieces,
    Forall (fun pc => ~ In EOT pc) (piece :: pieces)
    /\ x = join_sentinel (piece :: pieces).
Proof.
  induction x as [|c x (piece & pieces & F & E)].
  - exists [], []. split; [|reflexivity].
    constructor; [intros []|constructor].
  - destruct (Byte.byte_eq_dec c EOT) as [-> | N].
    + exists [], (piece :: pieces). split.
      * constructor; [intros []|exact F].
      * cbn [join_sentinel app]. now rewrite E.
    + exists (c :: piece), pieces. split.
      * inversion F as [|? ? Fp Fr]; subst. constructor; [|exact Fr].
        intros [I | I]; [now apply N|exact (Fp I)].
      * rewrite E. cbn [join_sentinel]. destruct pieces; reflexivity.
Qed.

Lemma remove_byte_join (pieces : list bytes) :
  Forall (fun pc => ~ In EOT pc) pieces ->
  remove_byte EOT (join_sentinel pieces) = concat pieces.
Proof.
  induction 1 as [|piece rest Fp Fr IH]; [reflexivity|].
  cbn [join_sentinel concat]. destruct rest as [|next rest].
  - cbn [concat]. now rewrite app_nil_r, remove_byte_free.
  - rewrite remove_byte_app, (remove_byte_free piece Fp).
    f_equal. cbn [remove_byte filter]. rewrite eqb_EOT_refl. cbn [negb].
    exact IH.
Qed.

(** The sentinel never reaches the standard output; every other byte
    does, in order: an argument made of sentinel-free pieces with
    sentinels between them, as every argument is, is printed as the
    pieces one after the other, and nothing else of the port changes. *)
Theorem stdout_write_bytes_drops_sentinel (x : bytes) (p : wire) :
  (exists pieces,
      Forall (fun pc => ~ In EOT pc) pieces /\ x = join_sentinel pieces)
  /\ (forall pieces,
        Forall (fun pc => ~ In EOT pc) pieces ->
        x = join_sentinel pieces ->
        stdout_write_bytes x p
        = {| buffered := buffered p; rx := rx p; tx := tx p; naps := naps p;
             printed := printed p ++ concat pieces |})
  /\ (forall out, printed (stdout_write_bytes x p) = printed p ++ out ->
        ~ In EOT out)
  /\ (~ In EOT x -> printed (stdout_write_bytes x p) = printed p ++ x).
Proof.
  split; [|split; [|split]].
  - destruct (join_sentinel_covers x) as (piece & pieces & F & E).
    now exists (piece :: pieces).
  - intros pieces F ->. cbn [stdout_write_bytes stdout_write stdout_flush
                             wire_stdout].
    now rewrite remove_byte_join.
  - intros out E. cbn in E. apply app_inv_head in E. subst out.
    apply remove_byte_clean.
  - intro N. cbn. now rewrite remove_byte_free.
Qed.

(** One sentinel-delimited read, with the state it leaves. *)
Lemma serial_read_until_EOT_at (head rest : bytes) (p : wire) :
  ~ In EOT head ->
  incoming p = head ++ EOT :: rest ->
  serial_read_until [EOT] p = (head ++ [EOT], consume (S (length head)) p).
Proof.
  intros N E. cbn [serial_read_until wire_serial].
  rewrite E, wire_read_until_EOT by assumption. cbn [app].
  rewrite length_app. cbn [length]. now rewrite Nat.add_1_r.
Qed.

Lemma serial_read_until_dry_at (p : wire) :
  ~ In EOT (incoming p) ->
  serial_read_until [EOT] p = (incoming p, consume (length (incoming p)) p).
Proof.
  intro N. cbn [serial_read_until wire_serial].
  now rewrite wire_read_until_dry.
Qed.

(** [follow] on a framed response, with the state it leaves. *)
Lemma follow_framed_at (timeout : option Q) (sink : consumer)
    (normal err rest : bytes) (p : wire) :
  input_preserving sink ->
  ~ In EOT normal -> ~ In EOT err ->
  incoming p = normal ++ [EOT] ++ err ++ [EOT] ++ rest ->
  follow timeout sink p
  = (Ok (normal, err),
     serial_flushInput
       (consume (S (length err))
          match sink with
          | Some f => f (normal ++ [EOT]) (consume (S (length normal)) p)
          | None => consume (S (length normal)) p
          end)).
Proof.
  intros Hs N1 N2 I.
  pose proof (serial_read_until_EOT_at normal (err ++ [EOT] ++ rest) p N1 I) as R1.
  set (p1 := consume (S (length normal)) p) in *.
  assert (I1 : incoming p1 = err ++ EOT :: rest).
  { subst p1. rewrite incoming_consume, I.
    replace (S (length normal)) with (length (normal ++ [EOT]))
      by (rewrite length_app; cbn [length]; lia).
    replace (normal ++ [EOT] ++ err ++ [EOT] ++ rest)
      with ((normal ++ [EOT]) ++ err ++ EOT :: rest)
      by (now rewrite <- app_assoc).
    apply skipn_length_app. }
  set (p1' := match sink with Some f => f (normal ++ [EOT]) p1 | None => p1 end).
  assert (I1' : incoming p1' = err ++ EOT :: rest).
  { subst p1'. destruct sink as [f|]; [rewrite (Hs f eq_refl)|]; exact I1. }
  pose proof (serial_read_until_EOT_at err rest p1' N2 I1') as R2.
  unfold follow. unfold bind at 1. rewrite read_until_run, R1. cbn [fst snd].
  rewrite endswith_last, eqb_EOT_refl. cbn [negb]. rewrite drop_last_last.
  fold p1'. unfold bind at 1. rewrite read_until_run, R2. cbn [fst snd].
  rewrite endswith_last, eqb_EOT_refl. cbn [negb]. rewrite drop_last_last.
  reflexivity.
Qed.

(** With the standard output as sink, [follow] prints the normal output,
    without the sentinel, and nothing of the error output. *)
Theorem follow_streams_normal_output (timeout : option Q)
    (normal err rest : bytes) (p : wire) :
  ~ In EOT normal -> ~ In EOT err ->
  incoming p = normal ++ [EOT] ++ err ++ [EOT] ++ rest ->
  fst (follow timeout (Some stdout_write_bytes) p) = Ok (normal, err)
  /\ printed (snd (follow timeout (Some stdout_write_bytes) p))
     = printed p ++ normal.
Proof.
  intros N1 N2 I.
  rewrite (follow_framed_at timeout (Some stdout_write_bytes) normal err rest p
             stdout_sink_input_preserving N1 N2 I).
  split; [reflexivity|]. cbn.
  rewrite remove_byte_app, (remove_byte_free normal N1). cbn.
  now rewrite app_nil_r.
Qed.

(** When the first sentinel never comes, [follow] raises, but what was
    read has already been handed to the sink: the partial output is on the
    standard output. *)
Theorem follow_timeout_already_streamed (timeout : option Q) (p : wire) :
  ~ In EOT (incoming p) ->
  follow timeout (Some stdout_write_bytes) p
  = (Raise first_eof_timeout,
     stdout_write_bytes (incoming p) (consume (length (incoming p)) p))
  /\ printed (snd (follow timeout (Some stdout_write_bytes) p))
     = printed p ++ incoming p.
Proof.
  intro N.
  assert (F : follow timeout (Some stdout_write_bytes) p
              = (Raise first_eof_timeout,
                 stdout_write_bytes (incoming p)
                   (consume (length (incoming p)) p))).
  { unfold follow. unfold bind at 1.
    rewrite read_until_run, (serial_read_until_dry_at p N). cbn [fst snd].
    assert (E : endswith (incoming p) [EOT] = false).
    { destruct (endswith (incoming p) [EOT]) eqn:E; [|reflexivity].
      apply endswith_one_iff in E as [y E]. exfalso. apply N.
      rewrite E. apply in_or_app. right. now left. }
    rewrite E. reflexivity. }
  rewrite F. split; [reflexivity|]. cbn.
  now rewrite (remove_byte_free _ N).
Qed.

End StreamingFacts.

(* ===================================================================== *)
(** ** Commands on the scripted serial line *)
(* ===================================================================== *)

Section CommandFacts.

Import Pyboard.

(** The chunk loop touches neither the input nor the standard output and
    pauses once per index. *)
Lemma write_chunks_rest (l : bytes) (p : wire) :
  buffered (write_chunks l p) = buffered p
  /\ rx (write_chunks l p) = rx p
  /\ printed (write_chunks l p) = printed p
  /\ naps (write_chunks l p)
     = naps p ++ repeat (1 # 100)%Q (length (range0 (length l) 256)).
Proof.
  unfold write_chunks.
  generalize (range0 (length l) 256) as idx. intro idx.
  revert p; induction idx as [|i idx IH]; intro p.
  - cbn. now rewrite app_nil_r.
  - cbn [fold_left length repeat].
    destruct (IH (sleep (1 # 100)
                    (serial_write (slice l i (min (i + 256) (length l))) p)))
      as (B & R & P & N).
    rewrite B, R, P, N. cbn. now rewrite <- app_assoc.
Qed.

Lemma flush_clears (q : wire) :
  buffered (serial_flushInput q) = [] /\ rx (serial_flushInput q) = rx q
  /\ printed (serial_flushInput q) = printed q /\ tx (serial_flushInput q) = tx q.
Proof.
  cbn. now rewrite skipn_all, Nat.sub_diag.
Qed.

Lemma consume_unbuffered (k : nat) (q : wire) :
  buffered q = [] ->
  buffered (consume k q) = [] /\ rx (consume k q) = skipn k (rx q).
Proof.
  intro B. cbn. rewrite B. cbn. now rewrite skipn_nil, Nat.sub_0_r.
Qed.

Lemma incoming_unbuffered (q : wire) : buffered q = [] -> incoming q = rx q.
Proof. unfold incoming. now intros ->. Qed.

(** [exec_raw_no_follow] on an acknowledged command, with the state it
    leaves. *)
Lemma exec_raw_no_follow_at (command : command) (payload stream : bytes)
    (p : wire) :
  to_command_bytes command = Some payload ->
  incoming p = b "OK" ++ stream ->
  exec_raw_no_follow command p
  = (Ok tt, consume 2 (serial_write [EOT] (write_chunks payload p))).
Proof.
  intros C I.
  rewrite (exec_raw_no_follow_run command payload p C). cbv zeta.
  set (p1 := serial_write [EOT] (write_chunks payload p)).
  assert (I1 : incoming p1 = b "OK" ++ stream).
  { subst p1. destruct (write_chunks_wire payload p) as [_ J].
    unfold incoming in *. cbn. exact (eq_trans J I). }
  cbn [serial_read wire_serial fst snd]. rewrite I1. reflexivity.
Qed.

(** A command whose response is complete and free of errors consumes
    exactly that response. *)
Lemma exec_frame (command : command) (payload normal rest : bytes) (p : wire) :
  to_command_bytes command = Some payload ->
  ~ In EOT normal ->
  buffered p = [] ->
  rx p = b "OK" ++ normal ++ [EOT] ++ [EOT] ++ rest ->
  exists p',
    exec_ command p = (Ok normal, p')
    /\ buffered p' = [] /\ rx p' = rest.
Proof.
  intros C N B R.
  assert (I : incoming p = b "OK" ++ normal ++ [EOT] ++ [] ++ [EOT] ++ rest)
    by (rewrite (incoming_unbuffered p B); exact R).
  pose proof (exec_raw_no_follow_at command payload _ p C I) as X.
  set (p1 := consume 2 (serial_write [EOT] (write_chunks payload p))) in *.
  destruct (write_chunks_rest payload p) as (Bw & Rw & _ & _).
  assert (B1 : buffered p1 = [] /\ rx p1 = normal ++ [EOT] ++ [EOT] ++ rest).
  { subst p1. destruct (consume_unbuffered 2
      (serial_write [EOT] (write_chunks payload p))) as [E1 E2].
    - cbn [serial_write wire_serial buffered]. now rewrite Bw.
    - split; [exact E1|]. rewrite E2. cbn [serial_write wire_serial rx].
      rewrite Rw, R. reflexivity. }
  destruct B1 as [B1 R1].
  assert (I1 : incoming p1 = normal ++ [EOT] ++ [] ++ [EOT] ++ rest)
    by (rewrite (incoming_unbuffered p1 B1); exact R1).
  pose proof (follow_framed_at (Some 10%Q) None normal [] rest p1) as F.
  specialize (F ltac:(intros f E; discriminate) N ltac:(intros []) I1).
  eexists. split; [|split].
  - unfold exec_, exec_raw. unfold bind at 1. unfold bind at 1. rewrite X.
    unfold bind at 1. rewrite F. reflexivity.
  - apply flush_clears.
  - destruct (flush_clears (consume (S (@length byte []))
                              (consume (S (length normal)) p1))) as (_ & E & _).
    rewrite E.
    destruct (consume_unbuffered (S (length normal)) p1 B1) as [B2 R2].
    destruct (consume_unbuffered (S (@length byte []))
                (consume (S (length normal)) p1) B2) as [_ R3].
    rewrite R3, R2, R1.
    replace (S (length normal)) with (length (normal ++ [EOT]))
      by (rewrite length_app; cbn [length]; lia).
    replace (normal ++ [EOT] ++ [EOT] ++ rest)
      with ((normal ++ [EOT]) ++ [EOT] ++ rest) by (now rewrite <- app_assoc).
    rewrite skipn_length_app. reflexivity.
Qed.

(** Two commands sent one after the other each get their own output:
    nothing of the first response is left for the second. *)
Theorem exec_back_to_back (c1 c2 : command) (pl1 pl2 n1 n2 rest : bytes)
    (p : wire) :
  to_command_bytes c1 = Some pl1 ->
  to_command_bytes c2 = Some pl2 ->
  ~ In EOT n1 -> ~ In EOT n2 ->
  buffered p = [] ->
  rx p = (b "OK" ++ n1 ++ [EOT] ++ [EOT])
         ++ (b "OK" ++ n2 ++ [EOT] ++ [EOT]) ++ rest ->
  exists p',
    (r1 <- exec_ c1 ;; r2 <- exec_ c2 ;; ret (r1, r2)) p = (Ok (n1, n2), p')
    /\ buffered p' = [] /\ rx p' = rest.
Proof.
  intros C1 C2 N1 N2 B R.
  destruct (exec_frame c1 pl1 n1 ((b "OK" ++ n2 ++ [EOT] ++ [EOT]) ++ rest) p
              C1 N1 B) as (p1 & X1 & B1 & R1).
  { rewrite R. cbn [app]. repeat rewrite <- app_assoc. reflexivity. }
  destruct (exec_frame c2 pl2 n2 rest p1 C2 N2 B1) as (p2 & X2 & B2 & R2).
  { rewrite R1. cbn [app]. repeat rewrite <- app_assoc. reflexivity. }
  exists p2. split; [|split; assumption].
  unfold bind at 1. rewrite X1. unfold bind at 1. rewrite X2. reflexivity.
Qed.

(** When the acknowledgement is not b"OK", [exec_raw] stops there: the
    output is not followed, the sink is never called and at most the two
    bytes of the failed acknowledgement are consumed. *)
Theorem exec_raw_stops_at_failed_ack (command : command) (payload : bytes)
    (timeout : option Q) (sink : consumer) (p : wire) :
  to_command_bytes command = Some payload ->
  firstn 2 (incoming p) <> b "OK" ->
  exec_raw command timeout sink p
  = (Raise could_not_exec,
     consume (length (firstn 2 (incoming p)))
       (serial_write [EOT] (write_chunks payload p)))
  /\ incoming (snd (exec_raw command timeout sink p)) = skipn 2 (incoming p)
  /\ printed (snd (exec_raw command timeout sink p)) = printed p.
Proof.
  intros C A.
  assert (X : exec_raw command timeout sink p
              = (Raise could_not_exec,
                 consume (length (firstn 2 (incoming p)))
                   (serial_write [EOT] (write_chunks payload p)))).
  { unfold exec_raw. unfold bind at 1.
    rewrite (exec_raw_no_follow_run command payload p C). cbv zeta.
    destruct (write_chunks_wire payload p) as [_ J].
    assert (I1 : incoming (serial_write [EOT] (write_chunks payload p))
                 = incoming p) by exact J.
    cbn [serial_read wire_serial fst snd]. rewrite I1.
    apply bytes_eqb_neq in A. rewrite A. reflexivity. }
  rewrite X. cbn [snd]. split; [reflexivity|]. split.
  - rewrite incoming_consume.
    destruct (write_chunks_wire payload p) as [_ J].
    change (incoming (serial_write [EOT] (write_chunks payload p)))
      with (incoming (write_chunks payload p)). rewrite J.
    rewrite length_firstn.
    destruct (Nat.le_gt_cases 2 (length (incoming p))) as [L | G].
    + now rewrite Nat.min_l.
    + rewrite Nat.min_r by lia. rewrite skipn_all. symmetry.
      apply skipn_all2. lia.
  - destruct (write_chunks_rest payload p) as (_ & _ & P & _). exact P.
Qed.

End CommandFacts.

(* ===================================================================== *)
(** ** Chunk sizes and pauses *)
(* ===================================================================== *)

Section ChunkSizes.

Import Pyboard.

Lemma nth_map_in {A B} (f : A -> B) (l : list A) (i : nat) (dA : A) (dB : B) :
  i < length l -> nth i (map f l) dB = f (nth i l dA).
Proof.
  revert i; induction l as [|x l IH]; intros [|i] L; cbn in *; try lia.
  - reflexivity.
  - apply IH. lia.
Qed.

Lemma range0_length (n : nat) : length (range0 n 256) = (n + 255) / 256.
Proof.
  unfold range0. rewrite length_map, length_seq. f_equal. lia.
Qed.

Lemma range0_nth (n i : nat) :
  i < (n + 255) / 256 -> nth i (range0 n 256) 0 = i * 256.
Proof.
  intro L. unfold range0.
  transitivity ((fun k => k * 256) (nth i (seq 0 ((n + 256 - 1) / 256)) 0)).
  - exact (map_nth (fun k => k * 256) _ 0 i).
  - cbv beta. rewrite seq_nth; [reflexivity|].
    replace (n + 256 - 1) with (n + 255) by lia. exact L.
Qed.

(** An index below the chunk count lies inside the payload. *)
Lemma chunk_index_inside (n i : nat) : i < (n + 255) / 256 -> 256 * i < n.
Proof.
  intro L.
  pose proof (Nat.div_mod_eq (n + 255) 256) as D.
  pose proof (Nat.mod_upper_bound (n + 255) 256) as U.
  nia.
Qed.

Lemma slice_exact_length (l : bytes) (a : nat) :
  length (slice l a (min (a + 256) (length l))) = min 256 (length l - a).
Proof.
  unfold slice. rewrite length_firstn, length_skipn. lia.
Qed.

(** Chunk [i] of a payload of [n] bytes has [min 256 (n - 256 i)] bytes:
    every chunk but the last is full and no chunk is empty; the chunks are
    followed by the single byte 0x04, and there is one pause of 1/100 s
    per chunk. *)
Theorem exec_raw_no_follow_chunk_sizes (command : command) (payload : bytes)
    (p : wire) :
  to_command_bytes command = Some payload ->
  let p' := snd (exec_raw_no_follow command p) in
  let n := length payload in
  let k := (n + 255) / 256 in
  length (tx p') = length (tx p) + k + 1
  /\ (forall i, i < k ->
        length (nth (length (tx p) + i) (tx p') []) = min 256 (n - 256 * i)
        /\ 0 < length (nth (length (tx p) + i) (tx p') [])
        /\ (i + 1 < k -> length (nth (length (tx p) + i) (tx p') []) = 256))
  /\ nth (length (tx p) + k) (tx p') [] = [EOT]
  /\ naps p' = naps p ++ repeat (1 # 100)%Q k.
Proof.
  intros C p' n k.
  set (chunks := map (fun i => slice payload i (min (i + 256) n)) (range0 n 256)).
  assert (K : length chunks = k)
    by (subst chunks; rewrite length_map; apply range0_length).
  assert (T : tx p' = tx p ++ chunks ++ [[EOT]]).
  { subst p'. rewrite (exec_raw_no_follow_run command payload p C). cbv zeta.
    destruct (write_chunks_wire payload p) as [T _].
    set (p1 := serial_write [EOT] (write_chunks payload p)).
    assert (T1 : tx (snd (serial_read 2 p1)) = tx p ++ chunks ++ [[EOT]]).
    { change (tx (snd (serial_read 2 p1)))
        with (tx (write_chunks payload p) ++ [[EOT]]).
      rewrite T. now rewrite <- app_assoc. }
    destruct (bytes_eqb (fst (serial_read 2 p1)) (b "OK")); exact T1. }
  assert (Nap : naps p' = naps p ++ repeat (1 # 100)%Q k).
  { subst p'. rewrite (exec_raw_no_follow_run command payload p C). cbv zeta.
    destruct (write_chunks_rest payload p) as (_ & _ & _ & Nw).
    set (p1 := serial_write [EOT] (write_chunks payload p)).
    assert (N1 : naps (snd (serial_read 2 p1)) = naps p ++ repeat (1 # 100)%Q k).
    { change (naps (snd (serial_read 2 p1)))
        with (naps (write_chunks payload p)).
      rewrite Nw. f_equal. f_equal. apply range0_length. }
    destruct (bytes_eqb (fst (serial_read 2 p1)) (b "OK")); exact N1. }
  split; [rewrite T, !length_app, K; cbn [length]; lia|].
  split; [|split; [|exact Nap]].
  - intros i L. rewrite T.
    rewrite app_nth2_plus, app_nth1 by (rewrite K; exact L).
    assert (E : nth i chunks [] = slice payload (i * 256) (min (i * 256 + 256) n)).
    { subst chunks.
      rewrite nth_map_in with (dA := 0) by (rewrite range0_length; exact L).
      now rewrite range0_nth. }
    rewrite E. subst n. rewrite slice_exact_length.
    pose proof (chunk_index_inside (length payload) i L) as In1.
    split; [f_equal; lia|]. split; [lia|].
    intro L2. pose proof (chunk_index_inside (length payload) (i + 1) L2). lia.
  - rewrite T. rewrite app_nth2_plus. rewrite <- K.
    rewrite app_nth2 by lia. now rewrite Nat.sub_diag.
Qed.

End ChunkSizes.

(* ===================================================================== *)
(** ** eval *)
(* ===================================================================== *)

Section EvalFacts.

Import Pyboard PyboardMore PyBytes.

Lemma lstrip_head (x : bytes) (c : byte) (x' : bytes) :
  lstrip x = c :: x' -> is_space c = false.
Proof.
  induction x as [|d x IH]; cbn [lstrip]; [discriminate|].
  destruct (is_space d) eqn:E; [exact IH|].
  intro H. injection H as <- _. exact E.
Qed.

(** A byte that is not white space stops [lstrip] at the latest. *)
Lemma lstrip_keeps_last (a : bytes) (c : byte) :
  is_space c = false -> exists a', lstrip (a ++ [c]) = a' ++ [c].
Proof.
  intro E. induction a as [|d a IH]; cbn [app lstrip].
  - rewrite E. now exists [].
  - destruct (is_space d); [exact IH|]. now exists (d :: a).
Qed.

Lemma rstrip_last (x y : bytes) (c : byte) :
  rstrip x = y ++ [c] -> is_space c = false.
Proof.
  unfold rstrip. intro H. apply (f_equal (@rev byte)) in H.
  rewrite rev_involutive, rev_app_distr in H. cbn [rev app] in H.
  exact (lstrip_head _ _ _ H).
Qed.

Lemma rstrip_keeps_head (c : byte) (x : bytes) :
  is_space c = false -> exists y, rstrip (c :: x) = c :: y.
Proof.
  intro E. unfold rstrip. cbn [rev].
  destruct (lstrip_keeps_last (rev x) c E) as [a' ->].
  rewrite rev_app_distr. cbn [rev app]. now eexists.
Qed.

(** The result of [strip] neither begins nor ends with white space. *)
Lemma strip_edges (x : bytes) :
  (forall c y, strip x = c :: y -> is_space c = false)
  /\ (forall y c, strip x = y ++ [c] -> is_space c = false).
Proof.
  unfold strip. split.
  - intros c y E. destruct (lstrip x) as [|d z] eqn:L.
    + discriminate E.
    + pose proof (lstrip_head _ _ _ L) as Ed.
      destruct (rstrip_keeps_head d z Ed) as [y' R]. rewrite R in E.
      injection E as <- _. exact Ed.
  - intros y c. apply rstrip_last.
Qed.

(** A trailing line end is stripped. *)
Lemma strip_line (x : bytes) : strip (x ++ [CR; LF]) = strip x.
Proof.
  unfold strip.
  assert (R : forall y, rstrip (y ++ [CR; LF]) = rstrip y).
  { intro y. unfold rstrip. rewrite rev_app_distr. reflexivity. }
  assert (L : lstrip (x ++ [CR; LF])
              = match lstrip x with [] => [] | _ => lstrip x ++ [CR; LF] end).
  { induction x as [|c x IH]; [reflexivity|]. cbn [app lstrip].
    destruct (is_space c); [exact IH|reflexivity]. }
  rewrite L. destruct (lstrip x) as [|d z]; [reflexivity|]. apply R.
Qed.

(** [exec] on a framed response, on the scripted line. *)
Lemma exec_framed (command : command) (payload normal err rest : bytes)
    (p : wire) :
  to_command_bytes command = Some payload ->
  ~ In EOT normal -> ~ In EOT err ->
  incoming p = b "OK" ++ normal ++ [EOT] ++ err ++ [EOT] ++ rest ->
  exists p',
    exec_ command p
    = (if truthy (BytesObj err) then Raise (remote_exception normal err)
       else Ok normal, p').
Proof.
  intros C N1 N2 I.
  destruct (exec_raw_no_follow_wire command payload _ p C I) as (p1 & X & I1).
  destruct (follow_framed (Some 10%Q) None normal err rest p1) as [p2 F];
    try assumption.
  { intros f E; discriminate. }
  exists p2. unfold exec_, exec_raw. unfold bind at 1. unfold bind at 1.
  rewrite X. unfold bind at 1. rewrite F. cbn [ret].
  destruct (truthy (BytesObj err)); reflexivity.
Qed.

(** [eval] sends [print(<expression>)] and returns the normal output with
    the white space at both ends removed, so for a device that answers with
    the value and a line end it returns the value; an error output makes
    it raise, with the output unstripped in the error. *)
Theorem eval_returns_stripped_output (expression : str)
    (payload normal err rest : bytes) (p : wire) :
  encode_utf8 (s "print(" ++ expression ++ s ")") = Some payload ->
  ~ In EOT normal -> ~ In EOT err ->
  incoming p = b "OK" ++ normal ++ [EOT] ++ err ++ [EOT] ++ rest ->
  (err = [] ->
     fst (eval expression p) = Ok (strip normal)
     /\ (forall c y, strip normal = c :: y -> is_space c = false)
     /\ (forall y c, strip normal = y ++ [c] -> is_space c = false)
     /\ (forall value, normal = value ++ [CR; LF] -> strip value = value ->
           fst (eval expression p) = Ok value))
  /\ (err <> [] ->
      fst (eval expression p)
      = Raise (Raised PyboardError
                 [AStr "exception"; ABytes normal; ABytes err] 234))
  /\ (exists chunks,
        tx (snd (eval expression p)) = tx p ++ chunks ++ [[EOT]]
        /\ concat chunks = payload).
Proof.
  intros C N1 N2 I.
  destruct (exec_framed (CmdStr (print_call expression)) payload normal err
              rest p C N1 N2 I) as [p' X].
  assert (Tx : exists chunks,
             tx p' = tx p ++ chunks ++ [[EOT]] /\ concat chunks = payload).
  { destruct (exec_raw_no_follow_wire (CmdStr (print_call expression)) payload
                _ p C I) as (p1 & X1 & I1).
    pose proof (follow_framed_at (Some 10%Q) None normal err rest p1
                  ltac:(intros f E; discriminate) N1 N2 I1) as F.
    assert (T1 : tx p1 = tx p ++ map (fun i => slice payload i
                                         (min (i + 256) (length payload)))
                                   (range0 (length payload) 256) ++ [[EOT]]).
    { rewrite (exec_raw_no_follow_at (CmdStr (print_call expression)) payload
                 _ p C I) in X1.
      injection X1 as <-. destruct (write_chunks_wire payload p) as [T _].
      change (tx (consume 2 (serial_write [EOT] (write_chunks payload p))))
        with (tx (write_chunks payload p) ++ [[EOT]]).
      rewrite T. now rewrite <- app_assoc. }
    assert (P' : p' = serial_flushInput
                        (consume (S (length err)) (consume (S (length normal)) p1))).
    { unfold exec_, exec_raw in X. unfold bind at 1 in X. unfold bind at 1 in X.
      rewrite X1 in X. unfold bind at 1 in X. rewrite F in X. cbn [ret] in X.
      destruct (truthy (BytesObj err)); injection X as <-; reflexivity. }
    eexists. split; [rewrite P'; exact T1|apply chunks_cover]. }
  assert (E : eval expression p
              = (if truthy (BytesObj err) then Raise (remote_exception normal err)
                 else Ok (strip normal), p')).
  { unfold eval. unfold bind at 1. rewrite X.
    destruct (truthy (BytesObj err)); reflexivity. }
  rewrite E. cbn [fst snd]. split; [|split; [|exact Tx]].
  - intros ->. cbn [truthy length Nat.eqb negb].
    split; [reflexivity|]. split; [apply strip_edges|]. split; [apply strip_edges|].
    intros value -> V. now rewrite strip_line, V.
  - intro NE. destruct err as [|c err]; [contradiction|]. reflexivity.
Qed.

End EvalFacts.

(* ===================================================================== *)
(** ** Credentials in the login *)
(* ===================================================================== *)

Section CredentialFacts.

Import TelnetToSerial.

Ltac flatten_log :=
  cbn [reply history fst snd]; repeat rewrite <- app_assoc; cbn [app].

Lemma written_app (h1 h2 : list tn_event) :
  written (h1 ++ h2) = written h1 ++ written h2.
Proof. apply flat_map_app. Qed.

(** The user name is written only after "Login as:" was found and the
    password only after "Password:" was found as well; nothing else is
    ever written. *)
Theorem relay_credentials_follow_prompts (ip user password : str)
    (rt : option Q) (p : peer) (u pw : bytes) :
  encode_ascii user = Some u ->
  encode_ascii password = Some pw ->
  let sc := handshake_script ip u pw rt in
  let seen1 := contains (reply p (history p ++ firstn 2 sc)) (b "Login as:") in
  let seen2 := contains (reply p (history p ++ firstn 4 sc)) (b "Password:") in
  written (history (snd (__init__ ip user password rt p)))
  = written (history p)
    ++ (if seen1
        then (u ++ [CR; LF]) :: (if seen2 then [pw ++ [CR; LF]] else [])
        else []).
Proof.
  intros U P sc seen1 seen2.
  rewrite (init_run ip user password rt p u pw U P). cbv zeta. fold sc.
  change (contains (reply p (history p ++ firstn 2 sc)) login_prompt) with seen1.
  change (contains (reply p (history p ++ firstn 4 sc)) password_prompt)
    with seen2.
  destruct seen1, seen2;
    try destruct (contains (reply p (history p ++ firstn 7 sc)) banner_tail);
    cbn [snd history]; rewrite written_app; reflexivity.
Qed.

(** Credentials that are not ASCII make the construction raise
    UnicodeEncodeError, not PyboardError, at the point where they are
    encoded: a bad user name once "Login as:" was found, with nothing
    written; a bad password once "Password:" was found too, with the user
    name already sent.  Before "Login as:" is found they play no part. *)
Theorem relay_non_ascii_credentials (ip user password : str)
    (rt : option Q) (p : peer) :
  let h1 := history p ++ [EvOpen ip 15%Q; EvReadUntil (b "Login as:") rt] in
  let seen1 := contains (reply p h1) (b "Login as:") in
  let run := __init__ ip user password rt p in
  (seen1 = false -> run = (Raise handshake_failed,
                           {| reply := reply p; history := h1 |}))
  /\ (seen1 = true -> encode_ascii user = None ->
      exists e, fst run = Raise e
                /\ exn_cls e = UnicodeEncodeError /\ exn_line e = 65%N
                /\ written (history (snd run)) = written (history p))
  /\ (seen1 = true ->
      forall u, encode_ascii user = Some u -> encode_ascii password = None ->
      let h2 := h1 ++ [EvWrite (u ++ [CR; LF]); EvReadUntil (b "Password:") rt] in
      contains (reply p h2) (b "Password:") = true ->
      exists e, fst run = Raise e
                /\ exn_cls e = UnicodeEncodeError /\ exn_line e = 70%N
                /\ written (history (snd run))
                   = written (history p) ++ [u ++ [CR; LF]]).
Proof.
  intros h1 seen1 run. subst run.
  unfold __init__, ascii_bytes. unfold bind, act, call, ret, raise.
  cbn [tn_open tn_read_until tn_write sleep peer_telnet peer_clock].
  unfold ask, log. flatten_log.
  change (history p ++ [EvOpen ip 15%Q; EvReadUntil login_prompt rt]) with h1.
  change (contains (reply p h1) login_prompt) with seen1.
  split; [|split].
  - intro S1. rewrite S1. reflexivity.
  - intros S1 Eu. rewrite S1, Eu. eexists. split; [reflexivity|].
    split; [reflexivity|]. split; [reflexivity|].
    cbn [snd history]. subst h1. rewrite written_app. cbn. now rewrite app_nil_r.
  - intros S1 u Eu P S2. rewrite S1, Eu.
    subst h1. flatten_log. revert S2. flatten_log. intro S2.
    change (contains
              (reply p
                 (history p ++
                  [EvOpen ip 15%Q; EvReadUntil login_prompt rt;
                   EvWrite (u ++ CRLF); EvReadUntil password_prompt rt]))
              password_prompt = true) in S2.
    match goal with
    | |- context [if ?c then _ else _] =>
        replace c with true by (symmetry; exact S2)
    end.
    rewrite P. eexists. split; [reflexivity|].
    split; [reflexivity|]. split; [reflexivity|].
    cbn [snd history]. rewrite !written_app. cbn. now rewrite app_nil_r.
Qed.

End CredentialFacts.

(* ===================================================================== *)
(** ** Arguments the constructor does not use *)
(* ===================================================================== *)

Section ConstructorFacts.
Context {U : UnicodeData}.

Import Pyboard.

(** The [baudrate] and [wait] arguments have no effect: the serial port
    is always set to 115200 baud with timeouts of 1 s and both control
    lines low, whatever the caller asks for, and the relay always gets a
    read timeout of 10 s; [rawdelay] is stored as given. *)
Theorem init_ignores_baudrate_and_wait (device : str) (b1 b2 : Z)
    (user password : str) (w1 w2 : Z) (rawdelay : Q) :
  __init__ device b1 user password w1 rawdelay
  = __init__ device b2 user password w2 rawdelay
  /\ _rawdelay (__init__ device b1 user password w1 rawdelay) = rawdelay
  /\ (forall url cfg,
        serial (__init__ device b1 user password w1 rawdelay) = Port url cfg ->
        url = device
        /\ cfg = {| baudrate := 115200; timeout := Some 1%Q;
                    write_timeout := Some 1%Q; inter_byte_timeout := Some 1%Q;
                    rts := 0; dtr := 0 |})
  /\ (forall ip usr pwd rt,
        serial (__init__ device b1 user password w1 rawdelay)
        = Relay ip usr pwd rt ->
        ip = device /\ usr = user /\ pwd = password /\ rt = Some 10%Q).
Proof.
  split; [reflexivity|]. unfold __init__.
  destruct (truthy (StrObj device) && isdigit (nth 0 device 0%N)
            && isdigit (last device 0%N) && (count device 46%N =? 3));
    cbn [serial _rawdelay].
  - split; [reflexivity|]. split; [discriminate|].
    intros ip usr pwd rt E. injection E as <- <- <- <-. repeat split.
  - split; [reflexivity|]. split; [|discriminate].
    intros url cfg E. injection E as <- <-. split; reflexivity.
Qed.

End ConstructorFacts.

(* ===================================================================== *)
(** ** Entering the raw REPL on the scripted serial line *)
(* ===================================================================== *)

Section EnterFacts.

Import Pyboard.

Lemma bytes_eqb_refl (x : bytes) : bytes_eqb x x = true.
Proof. now apply bytes_eqb_eq. Qed.

Lemma endswith_app (x e : bytes) : endswith (x ++ e) e = true.
Proof.
  unfold endswith. rewrite length_app.
  replace (length x + length e - length e) with (length x) by lia.
  rewrite skipn_length_app, bytes_eqb_refl.
  replace (length e <=? length x + length e) with true
    by (symmetry; apply Nat.leb_le; lia).
  reflexivity.
Qed.

Lemma endswith_suffix (x e : bytes) :
  endswith x e = true -> exists y, x = y ++ e.
Proof.
  unfold endswith. intro E. apply andb_true_iff in E as [_ E].
  apply bytes_eqb_eq in E.
  exists (firstn (length x - length e) x).
  transitivity (firstn (length x - length e) x
                ++ skipn (length x - length e) x).
  - symmetry. apply firstn_skipn.
  - now rewrite E.
Qed.

(** The last [k+1] bytes of a line that ends with [c] end with [c]. *)
Lemma tail_slice_snoc (x : bytes) (c : byte) (k : nat) :
  exists t, tail_slice (x ++ [c]) (S k) = t ++ [c].
Proof.
  unfold tail_slice. rewrite length_app. cbn [length].
  exists (skipn (length x + 1 - S k) x).
  rewrite skipn_app.
  replace (length x + 1 - S k - length x) with 0 by lia. reflexivity.
Qed.

Lemma mark_mismatch (e0 line : bytes) (z c : byte) :
  c <> z ->
  bytes_eqb (tail_slice (line ++ [c]) (length (e0 ++ [z]))) (e0 ++ [z]) = false.
Proof.
  intro N. apply bytes_eqb_neq. intro E.
  rewrite length_app, Nat.add_1_r in E.
  destruct (tail_slice_snoc line c (length e0)) as [t T]. rewrite T in E.
  apply app_inj_tail in E as [_ E]. contradiction.
Qed.

(** Reading until an ending whose last byte [z] occurs nowhere before:
    the read stops at the first [z] that completes the ending. *)
Lemma wire_read_until_mark (e0 : bytes) (z : byte) (line pre rest : bytes) :
  ~ In z pre ->
  (exists m, line ++ pre = m ++ e0) ->
  wire_read_until (e0 ++ [z]) line (pre ++ z :: rest) = line ++ pre ++ [z].
Proof.
  revert line; induction pre as [|c pre IH]; intros line N [m M].
  - cbn [app wire_read_until]. rewrite app_nil_r in M.
    replace (bytes_eqb (tail_slice (line ++ [z]) (length (e0 ++ [z])))
               (e0 ++ [z])) with true; [reflexivity|].
    symmetry. apply bytes_eqb_eq. rewrite M, <- app_assoc.
    unfold tail_slice. rewrite (length_app e0), Nat.add_1_r.
    replace (length (m ++ e0 ++ [z]) - S (length e0)) with (length m)
      by (rewrite !length_app; cbn [length]; lia).
    apply skipn_length_app.
  - cbn [app wire_read_until].
    rewrite mark_mismatch by (intro E; apply N; left; now symmetry).
    rewrite IH.
    + now rewrite <- app_assoc.
    + intro I; apply N; now right.
    + exists m. rewrite <- app_assoc. exact M.
Qed.

Lemma wire_read_until_no_mark (e0 : bytes) (z : byte) (line stream : bytes) :
  ~ In z stream ->
  wire_read_until (e0 ++ [z]) line stream = line ++ stream.
Proof.
  revert line; induction stream as [|c stream IH]; intros line N.
  - cbn. now rewrite app_nil_r.
  - cbn [wire_read_until].
    rewrite mark_mismatch by (intro E; apply N; left; now symmetry).
    rewrite IH by (intro I; apply N; now right).
    now rewrite <- app_assoc.
Qed.

(** [enter_raw_repl] in one equation. *)
Lemma enter_raw_repl_run {W : Type} `{Serial W} `{Clock W}
    (rawdelay : Q) (w : W) :
  let w0 :=
    serial_write [CR; x01]
      (serial_flushInput
         (serial_write [CR; x03; x03]
            (if Qgtb rawdelay 0 then sleep rawdelay w else w))) in
  enter_raw_repl rawdelay w
  = if endswith (fst (serial_read_until raw_repl_banner w0)) raw_repl_banner
    then (Ok tt, serial_flushInput (snd (serial_read_until raw_repl_banner w0)))
    else (Raise (could_not_enter 173),
          snd (serial_read_until raw_repl_banner w0)).
Proof.
  intro w0. unfold enter_raw_repl. unfold bind at 1.
  assert (D : (if Qgtb rawdelay 0 then act (sleep rawdelay) else ret tt) w
              = (Ok tt, if Qgtb rawdelay 0 then sleep rawdelay w else w))
    by (destruct (Qgtb rawdelay 0); reflexivity).
  rewrite D. unfold bind at 1, act at 1. unfold bind at 1, act at 1.
  unfold bind at 1, act at 1. unfold bind at 1.
  rewrite read_until_run. fold w0.
  destruct (endswith (fst (serial_read_until raw_repl_banner w0)) raw_repl_banner);
    reflexivity.
Qed.

Lemma banner_body_no_LF : ~ In LF banner_body.
Proof. intro I. cbn in I. intuition discriminate. Qed.

(** The port as [enter_raw_repl] finds it when it starts to read. *)
Lemma entry_sent (rawdelay : Q) (p : wire) :
  let w0 :=
    serial_write [CR; x01]
      (serial_flushInput
         (serial_write [CR; x03; x03]
            (if Qgtb rawdelay 0 then sleep rawdelay p else p))) in
  buffered w0 = [] /\ rx w0 = rx p /\ printed w0 = printed p
  /\ tx w0 = tx p ++ [[CR; x03; x03]; [CR; x01]]
  /\ naps w0 = naps p ++ (if Qgtb rawdelay 0 then [rawdelay] else []).
Proof.
  destruct (Qgtb rawdelay 0); cbn;
    rewrite skipn_all, Nat.sub_diag, <- app_assoc, ?app_nil_r; repeat split.
Qed.

Lemma enter_raw_repl_frame (rawdelay : Q) (pre rest : bytes) (p : wire) :
  ~ In LF pre ->
  rx p = pre ++ raw_repl_banner ++ rest ->
  exists p',
    enter_raw_repl rawdelay p = (Ok tt, p')
    /\ buffered p' = [] /\ rx p' = rest /\ printed p' = printed p
    /\ tx p' = tx p ++ [[CR; x03; x03]; [CR; x01]]
    /\ naps p' = naps p ++ (if Qgtb rawdelay 0 then [rawdelay] else []).
Proof.
  intros N R. rewrite enter_raw_repl_run. cbv zeta.
  destruct (entry_sent rawdelay p) as (B0 & R0 & P0 & T0 & N0). cbv zeta in *.
  set (w0 := serial_write [CR; x01]
               (serial_flushInput
                  (serial_write [CR; x03; x03]
                     (if Qgtb rawdelay 0 then sleep rawdelay p else p)))) in *.
  assert (L : wire_read_until raw_repl_banner [] (incoming w0)
              = pre ++ raw_repl_banner).
  { rewrite (incoming_unbuffered w0 B0), R0, R.
    change raw_repl_banner with (banner_body ++ [LF]).
    replace (pre ++ (banner_body ++ [LF]) ++ rest)
      with ((pre ++ banner_body) ++ LF :: rest)
      by (now rewrite <- !app_assoc).
    rewrite wire_read_until_mark.
    - cbn [app]. now rewrite <- app_assoc.
    - intro I. apply in_app_or in I as [I | I];
        [exact (N I)|exact (banner_body_no_LF I)].
    - exists pre. reflexivity. }
  cbn [serial_read_until wire_serial fst snd]. rewrite L, endswith_app.
  eexists. split; [reflexivity|].
  destruct (flush_clears (consume (length (pre ++ raw_repl_banner)) w0))
    as (Bf & Rf & Pf & Tf).
  rewrite Bf, Rf, Pf, Tf.
  destruct (consume_unbuffered (length (pre ++ raw_repl_banner)) w0 B0) as [_ Rc].
  rewrite Rc, R0, R.
  split; [reflexivity|]. split.
  - rewrite app_assoc. apply skipn_length_app.
  - repeat split; assumption.
Qed.

(** If the device sends the banner, after anything free of line feeds,
    [enter_raw_repl] succeeds: it writes CR ETX ETX and CR SOH, discards
    what was buffered before, pauses only for a positive raw delay, and
    consumes the stream up to the end of the banner and no further. *)
Theorem enter_raw_repl_consumes_banner (rawdelay : Q) (pre rest : bytes)
    (p : wire) :
  ~ In LF pre ->
  rx p = pre ++ b "raw REPL; CTRL-B to exit" ++ [CR; LF] ++ rest ->
  exists p',
    enter_raw_repl rawdelay p = (Ok tt, p')
    /\ buffered p' = [] /\ rx p' = rest /\ printed p' = printed p
    /\ tx p' = tx p ++ [[CR; x03; x03]; [CR; x01]]
    /\ naps p' = naps p ++ (if Qgtb rawdelay 0 then [rawdelay] else []).
Proof.
  intros N R. apply (enter_raw_repl_frame rawdelay pre rest p N).
  rewrite R. unfold raw_repl_banner. now rewrite <- app_assoc.
Qed.

(** A banner that is already in the input buffer does not count: the
    buffer is flushed before the raw REPL is requested, so if no line feed
    arrives afterwards [enter_raw_repl] raises, whatever was buffered. *)
Theorem enter_raw_repl_ignores_stale_input (rawdelay : Q) (p : wire) :
  ~ In LF (rx p) ->
  fst (enter_raw_repl rawdelay p)
  = Raise (Raised PyboardError [AStr "could not enter raw repl"] 173)
  /\ incoming (snd (enter_raw_repl rawdelay p)) = [].
Proof.
  intro N. rewrite enter_raw_repl_run. cbv zeta.
  destruct (entry_sent rawdelay p) as (B0 & R0 & _). cbv zeta in *.
  set (w0 := serial_write [CR; x01]
               (serial_flushInput
                  (serial_write [CR; x03; x03]
                     (if Qgtb rawdelay 0 then sleep rawdelay p else p)))) in *.
  assert (L : wire_read_until raw_repl_banner [] (incoming w0) = rx p).
  { rewrite (incoming_unbuffered w0 B0), R0.
    change raw_repl_banner with (banner_body ++ [LF]).
    now rewrite wire_read_until_no_mark. }
  cbn [serial_read_until wire_serial fst snd]. rewrite L.
  assert (E : endswith (rx p) raw_repl_banner = false).
  { destruct (endswith (rx p) raw_repl_banner) eqn:E; [|reflexivity].
    apply endswith_suffix in E as [y E]. exfalso. apply N. rewrite E.
    apply in_or_app. right. cbn. intuition. }
  rewrite E. cbn [fst snd]. split; [reflexivity|].
  rewrite incoming_consume, (incoming_unbuffered w0 B0), R0.
  apply skipn_all.
Qed.

(** Entering the raw REPL, leaving it and entering it again works when
    the device prints the banner at each entry; the bytes written are
    CR ETX ETX, CR SOH, CR STX, CR ETX ETX, CR SOH. *)
Theorem enter_exit_enter (rawdelay : Q) (pre1 pre2 rest : bytes) (p : wire) :
  ~ In LF pre1 -> ~ In LF pre2 ->
  rx p = (pre1 ++ raw_repl_banner) ++ (pre2 ++ raw_repl_banner) ++ rest ->
  exists p',
    (enter_raw_repl rawdelay ;; exit_raw_repl ;; enter_raw_repl rawdelay) p
    = (Ok tt, p')
    /\ rx p' = rest
    /\ tx p' = tx p ++ [[CR; x03; x03]; [CR; x01]; [CR; x02];
                        [CR; x03; x03]; [CR; x01]].
Proof.
  intros N1 N2 R.
  destruct (enter_raw_repl_frame rawdelay pre1
              ((pre2 ++ raw_repl_banner) ++ rest) p N1)
    as (p1 & X1 & B1 & R1 & _ & T1 & _).
  { rewrite R. now rewrite <- app_assoc. }
  destruct (enter_raw_repl_frame rawdelay pre2 rest
              (serial_write [CR; x02] p1) N2)
    as (p2 & X2 & B2 & R2 & _ & T2 & _).
  { cbn [serial_write wire_serial rx]. rewrite R1. now rewrite <- app_assoc. }
  exists p2. split; [|split].
  - unfold bind at 1. rewrite X1. unfold bind at 1.
    unfold exit_raw_repl, act at 1. exact X2.
  - exact R2.
  - rewrite T2. cbn [serial_write wire_serial tx]. rewrite T1.
    now rewrite <- !app_assoc.
Qed.

End EnterFacts.

(* ===================================================================== *)
(** ** A peer that keeps sending *)
(* ===================================================================== *)

Section FedRelayFacts.

Import TelnetToSerial.

(** The polling loop against a logged peer: the calls it made are polls
    and pauses, and the FIFO grew by exactly what the polls returned. *)
Lemma read_poll_log (fuel : nat) (self self' : t) (size : nat)
    (timeout_count : Z) (p p' : peer) :
  read_poll fuel self size timeout_count p = Some (self', p') ->
  reply p' = reply p
  /\ exists calls,
       history p' = history p ++ calls
       /\ Forall (fun ev => ev = EvReadEager \/ ev = EvSleep (25 # 100)) calls
       /\ fifo self' = fifo self ++ delivered (reply p) (history p) calls.
Proof.
  revert self timeout_count p.
  induction fuel as [|fuel IH]; intros self timeout_count p R; [discriminate|].
  cbn [read_poll] in R.
  destruct (length (fifo self) <? size).
  - cbn [tn_read_eager peer_telnet ask] in R.
    set (data := reply p (history (log EvReadEager p))) in *.
    destruct (negb (length data =? 0)) eqn:D.
    + apply IH in R as (Rp & calls & Hh & Hc & Hf).
      split; [exact Rp|]. exists (EvReadEager :: calls).
      split; [|split].
      * rewrite Hh. cbn [log history]. now rewrite <- app_assoc.
      * constructor; [now left|exact Hc].
      * rewrite Hf. cbn [extend fifo delivered log history reply].
        fold data. now rewrite <- app_assoc.
    + assert (E : data = []).
      { destruct data; [reflexivity|discriminate D]. }
      cbn [sleep peer_clock] in R.
      assert (Stop : (self', p') = (self, log (EvSleep (25 # 100))
                                            (log EvReadEager p)) ->
                     reply p' = reply p
                     /\ exists calls,
                          history p' = history p ++ calls
                          /\ Forall (fun ev => ev = EvReadEager
                                               \/ ev = EvSleep (25 # 100)) calls
                          /\ fifo self'
                             = fifo self ++ delivered (reply p) (history p) calls).
      { intro S0. injection S0 as -> ->. split; [reflexivity|].
        exists [EvReadEager; EvSleep (25 # 100)]. split; [|split].
        - cbn [log history]. now rewrite <- app_assoc.
        - constructor; [now left|]. constructor; [now right|constructor].
        - cbn [delivered]. fold (log EvReadEager p). cbn [log history] in data.
          fold data. rewrite E. cbn [app]. now rewrite app_nil_r. }
      assert (Go : read_poll fuel self size (0 + 1)
                     (log (EvSleep (25 # 100)) (log EvReadEager p))
                   = Some (self', p') ->
                   reply p' = reply p
                   /\ exists calls,
                        history p' = history p ++ calls
                        /\ Forall (fun ev => ev = EvReadEager
                                             \/ ev = EvSleep (25 # 100)) calls
                        /\ fifo self'
                           = fifo self ++ delivered (reply p) (history p) calls).
      { intro R'. apply IH in R' as (Rp & calls & Hh & Hc & Hf).
        split; [exact Rp|].
        exists (EvReadEager :: EvSleep (25 # 100) :: calls).
        split; [|split].
        - rewrite Hh. cbn [log history]. now rewrite <- !app_assoc.
        - constructor; [now left|]. constructor; [now right|exact Hc].
        - rewrite Hf. cbn [delivered log history reply].
          cbn [log history] in data. fold data. rewrite E. reflexivity. }
      destruct (read_timeout self) as [rt|].
      * destruct (Qgtb (inject_Z 0) (4 * rt)).
        -- injection R as <- <-. now apply Stop.
        -- exact (Go R).
      * exact (Go R).
  - injection R as <- <-. split; [reflexivity|]. exists [].
    split; [now rewrite app_nil_r|]. split; [constructor|].
    cbn [delivered]. now rewrite app_nil_r.
Qed.

(** Whenever [read] returns, nothing was lost, added or reordered: the
    bytes returned followed by the FIFO left behind are the old FIFO
    followed by what the peer delivered at the polls of this call, in
    order; the call only polled and paused; at most [size] bytes are
    returned, and fewer only with an empty FIFO left and a negative read
    timeout. *)
Theorem relay_read_conserves (fuel : nat) (self self' : t) (size : nat)
    (data : bytes) (p p' : peer) :
  read fuel self size p = Some (data, self', p') ->
  (exists calls,
      history p' = history p ++ calls
      /\ Forall (fun ev => ev = EvReadEager \/ ev = EvSleep (25 # 100)) calls
      /\ data ++ fifo self'
         = fifo self ++ delivered (reply p) (history p) calls)
  /\ read_timeout self' = read_timeout self
  /\ length data <= size
  /\ (length data < size ->
      fifo self' = []
      /\ exists rt, read_timeout self = Some rt /\ (rt < 0)%Q).
Proof.
  unfold read. intro R.
  destruct (read_poll fuel self size 0 p) as [[self1 p1]|] eqn:P; [|discriminate].
  pose proof (read_poll_log _ _ _ _ _ _ _ P) as (_ & calls & Hh & Hc & Hf).
  apply read_poll_exit in P as (T & _ & E).
  rewrite drain_spec in R. cbn [length app] in R. rewrite Nat.sub_0_r in R.
  injection R as <- <- <-. cbn [fifo read_timeout].
  split; [exists calls; rewrite firstn_skipn; now repeat split|].
  split; [exact T|].
  split; [rewrite length_firstn; lia|].
  rewrite length_firstn. intro Short.
  split.
  - apply skipn_all2. lia.
  - destruct E as [Long | Neg]; [lia|exact Neg].
Qed.

Lemma read_poll_fed (fuel : nat) (self : t) (size : nat) (timeout_count : Z)
    (p : peer) :
  (forall h, reply p (h ++ [EvReadEager]) <> []) ->
  size - length (fifo self) < fuel ->
  exists self' p',
    read_poll fuel self size timeout_count p = Some (self', p')
    /\ size <= length (fifo self').
Proof.
  intro Fed. revert self timeout_count p Fed.
  induction fuel as [|fuel IH]; intros self timeout_count p Fed L; [lia|].
  cbn [read_poll].
  destruct (length (fifo self) <? size) eqn:Short.
  - apply Nat.ltb_lt in Short.
    cbn [tn_read_eager peer_telnet ask].
    destruct (reply p (history (log EvReadEager p))) as [|c data] eqn:R.
    + exfalso. exact (Fed _ R).
    + cbn [length Nat.eqb negb].
      apply IH; [exact Fed|].
      cbn [extend fifo]. rewrite length_app. cbn [length]. lia.
  - apply Nat.ltb_ge in Short. now exists self, p.
Qed.

(** When every poll brings at least one byte, [read(size)] returns, after
    at most as many iterations as bytes were missing plus one, with
    exactly [size] bytes, whatever the read timeout; the bytes returned
    and the FIFO left behind are the old FIFO followed by what the peer
    delivered at the polls of this call, in order. *)
Theorem relay_read_returns_when_fed (self : t) (size : nat) (p : peer) :
  (forall h, reply p (h ++ [EvReadEager]) <> []) ->
  exists data self' p' calls,
    read (S (size - length (fifo self))) self size p = Some (data, self', p')
    /\ length data = size
    /\ history p' = history p ++ calls
    /\ data ++ fifo self'
       = fifo self ++ delivered (reply p) (history p) calls.
Proof.
  intro Fed.
  destruct (read_poll_fed (S (size - length (fifo self))) self size 0 p Fed)
    as (self1 & p1 & R & L); [lia|].
  pose proof (read_poll_log _ _ _ _ _ _ _ R) as (_ & calls & Hh & _ & Hf).
  unfold read. rewrite R, drain_spec. cbn [length app].
  rewrite Nat.sub_0_r. exists (firstn size (fifo self1)).
  eexists. exists p1, calls. split; [reflexivity|].
  cbn [fifo]. split; [rewrite length_firstn; lia|].
  split; [exact Hh|]. now rewrite firstn_skipn.
Qed.

End FedRelayFacts.

(* ===================================================================== *)
(** ** A whole session on the scripted serial line *)
(* ===================================================================== *)

Section SessionRun.

Import Pyboard.

(** [isPrompt()], were it called, answers [True] exactly when the input
    buffer holds b">" and nothing else, and it empties the buffer: asked
    again at once, it answers [False]. *)
Theorem isPrompt_consumes_prompt (p : wire) :
  fst (isPrompt p) = Ok (bytes_eqb (buffered p) (b ">"))
  /\ (fst (isPrompt p) = Ok true <-> buffered p = b ">")
  /\ buffered (snd (isPrompt p)) = []
  /\ rx (snd (isPrompt p)) = rx p
  /\ fst ((isPrompt ;; isPrompt) p) = Ok false.
Proof.
  assert (R : isPrompt p
              = (Ok (bytes_eqb (buffered p) (b ">")),
                 consume (length (buffered p)) p)).
  { unfold isPrompt, bind, call, ret. cbn [serial_read_all wire_serial].
    destruct (bytes_eqb (buffered p) (b ">")); reflexivity. }
  rewrite R. cbn [fst snd].
  split; [reflexivity|]. split; [|split; [|split]].
  - split.
    + intro E. injection E as E. now apply bytes_eqb_eq.
    + intro E. f_equal. now apply bytes_eqb_eq.
  - cbn. apply skipn_all.
  - cbn. now rewrite Nat.sub_diag.
  - unfold bind at 1. rewrite R.
    unfold isPrompt, bind, call, ret. cbn [serial_read_all wire_serial].
    cbn [buffered consume]. rewrite skipn_all. reflexivity.
Qed.

(** The usage of the module docstring, [enter_raw_repl], [exec],
    [exit_raw_repl]: with a device that prints the banner and answers the
    command with OK, its output and two sentinels, the session returns the
    output, has consumed exactly the device's answer, and has written
    CR ETX ETX, CR SOH, the command in chunks, EOT and CR STX. *)
Theorem session_round_trip (rawdelay : Q) (command : command)
    (payload pre normal rest : bytes) (p : wire) :
  to_command_bytes command = Some payload ->
  ~ In LF pre -> ~ In EOT normal ->
  rx p = (pre ++ raw_repl_banner)
         ++ (b "OK" ++ normal ++ [EOT] ++ [EOT]) ++ rest ->
  exists p' chunks,
    (enter_raw_repl rawdelay ;; out <- exec_ command ;;
     exit_raw_repl ;; ret out) p
    = (Ok normal, p')
    /\ rx p' = rest
    /\ tx p' = tx p ++ [[CR; x03; x03]; [CR; x01]] ++ chunks
                    ++ [[EOT]; [CR; x02]]
    /\ concat chunks = payload.
Proof.
  intros C N1 N2 R.
  destruct (enter_raw_repl_frame rawdelay pre
              ((b "OK" ++ normal ++ [EOT] ++ [EOT]) ++ rest) p N1)
    as (p1 & X1 & B1 & R1 & _ & T1 & _).
  { rewrite R. now rewrite <- app_assoc. }
  assert (R1' : rx p1 = b "OK" ++ normal ++ [EOT] ++ [EOT] ++ rest).
  { rewrite R1. cbn [app]. repeat rewrite <- app_assoc. reflexivity. }
  assert (I1 : incoming p1 = b "OK" ++ normal ++ [EOT] ++ [] ++ [EOT] ++ rest)
    by (rewrite (incoming_unbuffered p1 B1); exact R1').
  destruct (exec_frame command payload normal rest p1 C N2 B1 R1')
    as (p2 & X2 & B2 & R2).
  pose proof (exec_raw_no_follow_at command payload _ p1 C I1) as A.
  set (q := consume 2 (serial_write [EOT] (write_chunks payload p1))) in *.
  assert (Iq : incoming q = normal ++ [EOT] ++ [] ++ [EOT] ++ rest).
  { destruct (exec_raw_no_follow_wire command payload _ p1 C I1)
      as (q' & A' & Iq).
    rewrite A in A'. injection A' as <-. exact Iq. }
  pose proof (follow_framed_at (Some 10%Q) None normal [] rest q
                ltac:(intros f E; discriminate) N2 ltac:(intros []) Iq) as F.
  assert (P2 : p2 = serial_flushInput
                      (consume (S (@length byte []))
                         (consume (S (length normal)) q))).
  { unfold exec_, exec_raw in X2. unfold bind at 1 in X2.
    unfold bind at 1 in X2. rewrite A in X2. unfold bind at 1 in X2.
    rewrite F in X2. cbn in X2. injection X2 as <-. reflexivity. }
  exists (serial_write [CR; x02] p2).
  exists (map (fun i => slice payload i (min (i + 256) (length payload)))
              (range0 (length payload) 256)).
  split; [|split; [|split]].
  - unfold bind at 1. rewrite X1. unfold bind at 1. rewrite X2.
    reflexivity.
  - exact R2.
  - cbn [serial_write wire_serial tx]. rewrite P2.
    change (tx (serial_flushInput
                  (consume (S (@length byte []))
                     (consume (S (length normal)) q))))
      with (tx (write_chunks payload p1) ++ [[EOT]]).
    destruct (write_chunks_wire payload p1) as [Tw _]. rewrite Tw, T1.
    repeat rewrite <- app_assoc. reflexivity.
  - apply chunks_cover.
Qed.

End SessionRun.

(* ===================================================================== *)
(** ** More concrete runs *)
(* ===================================================================== *)

Section MoreRuns.

Import Pyboard PyboardMore.

Ltac sentinel_free :=
  let I := fresh "I" in intro I; cbn in I; intuition discriminate.

Lemma relay_read_buffered_witness :
  TelnetToSerial.read 1
    {| TelnetToSerial.read_timeout := Some 10%Q; TelnetToSerial.fifo := b "abc" |}
    2 silent_peer
  = Some (b "ab",
          {| TelnetToSerial.read_timeout := Some 10%Q;
             TelnetToSerial.fifo := b "c" |},
          silent_peer).
Proof.
  apply (relay_read_buffered 0
           {| TelnetToSerial.read_timeout := Some 10%Q;
              TelnetToSerial.fifo := b "abc" |} 2 silent_peer).
  cbn. lia.
Defined.

Lemma relay_read_conserves_witness :
  exists calls,
    [EvReadEager; EvReadEager] = [] ++ calls
    /\ Forall (fun ev => ev = EvReadEager \/ ev = EvSleep (25 # 100)) calls
    /\ b "aba" ++ b "b" = b "" ++ delivered (reply chatty_peer) [] calls.
Proof.
  refine (proj1 (relay_read_conserves 3 relay0
                   {| TelnetToSerial.read_timeout := Some 10%Q;
                      TelnetToSerial.fifo := b "b" |}
                   3 (b "aba") chatty_peer
                   {| reply := reply chatty_peer;
                      history := [EvReadEager; EvReadEager] |} _)).
  reflexivity.
Defined.

Lemma relay_read_exact_witness : length (b "aba") = 3.
Proof.
  refine (relay_read_exact 3 relay0
            {| TelnetToSerial.read_timeout := Some 10%Q;
               TelnetToSerial.fifo := b "b" |}
            3 (b "aba") chatty_peer _ _ _); [discriminate|reflexivity].
Defined.

Lemma inWaiting_reports_depth_witness :
  fst (fst (TelnetToSerial.inWaiting relay0 chatty_peer)) = 2.
Proof.
  exact (proj1 (inWaiting_reports_depth 0 relay0 chatty_peer)).
Defined.

Lemma relay_read_returns_when_fed_witness :
  exists data self' p' calls,
    TelnetToSerial.read 4 relay0 3 chatty_peer = Some (data, self', p')
    /\ length data = 3
    /\ history p' = [] ++ calls
    /\ data ++ TelnetToSerial.fifo self'
       = [] ++ delivered (reply chatty_peer) [] calls.
Proof.
  apply (relay_read_returns_when_fed relay0 3 chatty_peer).
  intros h E. cbn in E. rewrite last_last in E. discriminate E.
Defined.

Lemma stdout_write_bytes_drops_sentinel_witness :
  printed (stdout_write_bytes (b "a" ++ [EOT] ++ b "b" ++ [EOT] ++ b "c")
             (wire_of []))
  = b "abc".
Proof.
  exact (f_equal printed
           (proj1 (proj2 (stdout_write_bytes_drops_sentinel
                            (b "a" ++ [EOT] ++ b "b" ++ [EOT] ++ b "c")
                            (wire_of [])))
              [b "a"; b "b"; b "c"]
              ltac:(repeat constructor; sentinel_free) eq_refl)).
Defined.

Lemma follow_streams_normal_output_witness :
  printed (snd (follow None (Some stdout_write_bytes)
                  (wire_of (b "42" ++ [EOT] ++ b "oops" ++ [EOT] ++ b ">"))))
  = b "" ++ b "42".
Proof.
  refine (proj2 (follow_streams_normal_output None (b "42") (b "oops") (b ">")
                   (wire_of _) _ _ eq_refl)); sentinel_free.
Defined.

Lemma follow_timeout_already_streamed_witness :
  printed (snd (follow None (Some stdout_write_bytes) (wire_of (b "partial"))))
  = b "" ++ b "partial".
Proof.
  refine (proj2 (follow_timeout_already_streamed None
                   (wire_of (b "partial")) _)).
  sentinel_free.
Defined.

Lemma exec_back_to_back_witness :
  exists p',
    (r1 <- exec_ (CmdBytes (b "print(1)")) ;;
     r2 <- exec_ (CmdBytes (b "print(2)")) ;; ret (r1, r2))
      (wire_of ((b "OK" ++ b "1" ++ [EOT] ++ [EOT])
                ++ (b "OK" ++ b "2" ++ [EOT] ++ [EOT]) ++ b ">"))
    = (Ok (b "1", b "2"), p')
    /\ buffered p' = [] /\ rx p' = b ">".
Proof.
  refine (exec_back_to_back (CmdBytes (b "print(1)")) (CmdBytes (b "print(2)"))
            _ _ (b "1") (b "2") (b ">") (wire_of _)
            eq_refl eq_refl _ _ eq_refl eq_refl); sentinel_free.
Defined.

Lemma exec_raw_stops_at_failed_ack_witness :
  printed (snd (exec_raw (CmdBytes (b "print(1)")) None
                  (Some stdout_write_bytes)
                  (wire_of (b "Traceback" ++ [EOT] ++ [EOT]))))
  = [].
Proof.
  refine (proj2 (proj2 (exec_raw_stops_at_failed_ack (CmdBytes (b "print(1)"))
                          (b "print(1)") None (Some stdout_write_bytes)
                          (wire_of (b "Traceback" ++ [EOT] ++ [EOT]))
                          eq_refl _))).
  discriminate.
Defined.

Lemma exec_raw_no_follow_chunk_sizes_witness :
  length (nth 1 (tx (snd (exec_raw_no_follow (CmdBytes (repeat x61 600))
                            (wire_of (b "OK"))))) []) = 256
  /\ length (nth 2 (tx (snd (exec_raw_no_follow (CmdBytes (repeat x61 600))
                               (wire_of (b "OK"))))) []) = 88.
Proof.
  pose proof (exec_raw_no_follow_chunk_sizes (CmdBytes (repeat x61 600))
                (repeat x61 600) (wire_of (b "OK")) eq_refl) as H.
  cbv zeta in H. destruct H as (_ & H & _). split.
  - exact (proj1 (H 1 ltac:(vm_compute; lia))).
  - exact (proj1 (H 2 ltac:(vm_compute; lia))).
Defined.

Lemma eval_returns_stripped_output_witness :
  fst (eval (s "1+1")
         (wire_of (b "OK" ++ (b "2" ++ [CR; LF]) ++ [EOT] ++ b "" ++ [EOT]
                     ++ b ">")))
  = Ok (b "2").
Proof.
  refine (proj2 (proj2 (proj2 (proj1
            (eval_returns_stripped_output (s "1+1") (b "print(1+1)")
               (b "2" ++ [CR; LF]) (b "") (b ">") (wire_of _)
               eq_refl _ _ eq_refl) eq_refl))) (b "2") eq_refl eq_refl);
    sentinel_free.
Defined.

Lemma relay_credentials_follow_prompts_witness :
  written (history (snd (TelnetToSerial.__init__ (s "192.168.1.1") (s "micro")
                           (s "python") (Some 10%Q) prompt_peer)))
  = [b "micro" ++ [CR; LF]; b "python" ++ [CR; LF]]
  /\ written (history (snd (TelnetToSerial.__init__ (s "192.168.1.1")
                              (s "micro") (s "python") (Some 10%Q) silent_peer)))
     = [].
Proof.
  split.
  - exact (relay_credentials_follow_prompts (s "192.168.1.1") (s "micro")
             (s "python") (Some 10%Q) prompt_peer (b "micro") (b "python")
             eq_refl eq_refl).
  - exact (relay_credentials_follow_prompts (s "192.168.1.1") (s "micro")
             (s "python") (Some 10%Q) silent_peer (b "micro") (b "python")
             eq_refl eq_refl).
Defined.

Lemma relay_non_ascii_credentials_witness :
  exists e,
    fst (TelnetToSerial.__init__ (s "192.168.1.1") [233%N] (s "python")
           (Some 10%Q) prompt_peer) = Raise e
    /\ exn_cls e = UnicodeEncodeError /\ exn_line e = 65%N
    /\ written (history (snd (TelnetToSerial.__init__ (s "192.168.1.1") [233%N]
                                (s "python") (Some 10%Q) prompt_peer)))
       = written [].
Proof.
  exact (proj1 (proj2 (relay_non_ascii_credentials (s "192.168.1.1") [233%N]
                         (s "python") (Some 10%Q) prompt_peer))
           eq_refl eq_refl).
Defined.

Lemma enter_raw_repl_consumes_banner_witness :
  exists p',
    enter_raw_repl 0
      (wire_of (b "MicroPython" ++ b "raw REPL; CTRL-B to exit" ++ [CR; LF]
                  ++ b ">"))
    = (Ok tt, p')
    /\ buffered p' = [] /\ rx p' = b ">" /\ printed p' = []
    /\ tx p' = [] ++ [[CR; x03; x03]; [CR; x01]]
    /\ naps p' = [] ++ [].
Proof.
  refine (enter_raw_repl_consumes_banner 0 (b "MicroPython") (b ">")
            (wire_of _) _ eq_refl).
  sentinel_free.
Defined.

Lemma enter_raw_repl_ignores_stale_input_witness :
  fst (enter_raw_repl 0
         {| buffered := raw_repl_banner; rx := []; tx := []; naps := [];
            printed := [] |})
  = Raise (could_not_enter 173).
Proof.
  refine (proj1 (enter_raw_repl_ignores_stale_input 0
                   {| buffered := raw_repl_banner; rx := []; tx := [];
                      naps := []; printed := [] |} _)).
  intros [].
Defined.

Lemma enter_exit_enter_witness :
  exists p',
    (enter_raw_repl 0 ;; exit_raw_repl ;; enter_raw_repl 0)
      (wire_of ((b "" ++ raw_repl_banner) ++ (b ">" ++ raw_repl_banner) ++ b ">"))
    = (Ok tt, p')
    /\ rx p' = b ">"
    /\ tx p' = [] ++ [[CR; x03; x03]; [CR; x01]; [CR; x02];
                      [CR; x03; x03]; [CR; x01]].
Proof.
  refine (enter_exit_enter 0 (b "") (b ">") (b ">") (wire_of _) _ _ eq_refl);
    sentinel_free.
Defined.

Lemma session_round_trip_witness :
  exists p' chunks,
    (enter_raw_repl 0 ;; out <- exec_ (CmdStr (s "print(6*7)")) ;;
     exit_raw_repl ;; ret out)
      (wire_of ((b "" ++ raw_repl_banner)
                ++ (b "OK" ++ b "42" ++ [EOT] ++ [EOT]) ++ b ">"))
    = (Ok (b "42"), p')
    /\ rx p' = b ">"
    /\ tx p' = [] ++ [[CR; x03; x03]; [CR; x01]] ++ chunks
                  ++ [[EOT]; [CR; x02]]
    /\ concat chunks = b "print(6*7)".
Proof.
  refine (session_round_trip 0 (CmdStr (s "print(6*7)")) (b "print(6*7)")
            (b "") (b "42") (b ">") (wire_of _) eq_refl _ _ eq_refl);
    sentinel_free.
Defined.

End MoreRuns.
